(** * Changelog validator ([scripts/yaml_parser.py]): model and properties

    The validator reads a changelog line by line from standard input,
    matches every line against a fixed table of regular expressions and
    keeps ten boolean flags that say which fields of the current
    [- task] or [- release] block were already seen.  The first line
    that fits no rule prints an error and terminates the process.

    The development follows the order of the source file:
    - [Re]: regular expressions, [re.match] as a function, and what a
      pattern means as a relation;
    - the pattern table, the flag dictionary and the methods of the
      class [YamlParser], the driver [parse_yaml];
    - the matcher against the meaning of the patterns, the shapes of the
      lines each pattern accepts, the steps of the two kinds of block,
      and the properties of the engine and of whole runs. *)

From Stdlib Require Import Bool Arith Lia List Ascii String.
From Stdlib Require Import DecimalNat DecimalString.
Import ListNotations.

Local Open Scope string_scope.
Local Open Scope bool_scope.

(* ================================================================== *)
(** ** Regular expressions and [re.match] *)
(* ================================================================== *)

Module Re.

(** Characters are code points below 256.  The classes are those of
    Python's [re] on [str] patterns (Unicode semantics) restricted to
    that range: [\d] is a decimal digit, [\S] anything that is not white
    space, [.] anything but a line feed. *)

Definition code (c : ascii) : nat := nat_of_ascii c.

Definition newline : ascii := "010"%char.

Definition is_digit (c : ascii) : bool :=
  ((48 <=? code c) && (code c <=? 57))%nat.

Definition is_space (c : ascii) : bool :=
  (((9 <=? code c) && (code c <=? 13))
   || ((28 <=? code c) && (code c <=? 32))
   || (code c =? 133)
   || (code c =? 160))%nat.

Definition is_newline (c : ascii) : bool := Ascii.eqb c newline.

(** The constructs the patterns of the file use.  Parentheses only group
    (no method reads a captured group), so they leave no trace in the
    syntax tree. *)
Inductive regex : Type :=
| Bol                        (* ^ *)
| Eol                        (* $ *)
| Lit (s : string)           (* literal text, escapes resolved *)
| Digit                      (* \d *)
| NonSpace                   (* \S *)
| Dot                        (* . *)
| Cat (r1 r2 : regex)        (* r1r2 *)
| Alt (r1 r2 : regex)        (* r1|r2 *)
| Star (r : regex).          (* r* *)

Definition Plus (r : regex) : regex := Cat r (Star r).      (* r+ *)
Definition Twice (r : regex) : regex := Cat r r.            (* r{2} *)

Declare Scope regex_scope.
Delimit Scope regex_scope with re.
Bind Scope regex_scope with regex.
Notation "r1 >> r2" := (Cat r1 r2)
  (at level 41, right associativity) : regex_scope.
Notation "r1 <|> r2" := (Alt r1 r2)
  (at level 42, right associativity) : regex_scope.

(** [strip_prefix p s] removes the literal [p] from the front of [s]. *)
Fixpoint strip_prefix (p s : string) : option string :=
  match p with
  | EmptyString => Some s
  | String a p' =>
      match s with
      | EmptyString => None
      | String b s' => if Ascii.eqb a b then strip_prefix p' s' else None
      end
  end.

(** One character of a class. *)
Definition one (cls : ascii -> bool) (pos : nat) (s : string)
    (k : nat -> string -> bool) : bool :=
  match s with
  | EmptyString => false
  | String c s' => cls c && k (S pos) s'
  end.

(** [$] holds at the end of the string and just before a line feed that
    ends the string. *)
Definition at_eol (s : string) : bool :=
  match s with
  | EmptyString => true
  | String c EmptyString => is_newline c
  | String _ (String _ _) => false
  end.

(** The loop of a star over the matcher [body] of its operand: try one
    more round, which has to consume text, and go on from there, or
    stop here.  [fuel] bounds the rounds. *)
Fixpoint star_iter (body : nat -> string -> (nat -> string -> bool) -> bool)
    (k : nat -> string -> bool) (fuel pos : nat) (s : string)
    {struct fuel} : bool :=
  match fuel with
  | O => k pos s
  | S fuel' =>
      body pos s
        (fun pos' s' =>
           (String.length s' <? String.length s)%nat
           && star_iter body k fuel' pos' s')
      || k pos s
  end.

(** Backtracking matcher in continuation-passing style: [exec r pos s k]
    holds when [r] matches some prefix of [s], which starts at offset
    [pos] of the subject, and [k] accepts the offset and text that
    remain.  A star iterates its operand only as long as a round
    consumes text, as the engine does, so the length of [s] bounds the
    number of rounds. *)
Fixpoint exec (r : regex) (pos : nat) (s : string)
    (k : nat -> string -> bool) {struct r} : bool :=
  match r with
  | Bol => (pos =? 0)%nat && k pos s
  | Eol => at_eol s && k pos s
  | Lit p =>
      match strip_prefix p s with
      | Some s' => k (pos + String.length p) s'
      | None => false
      end
  | Digit => one is_digit pos s k
  | NonSpace => one (fun c => negb (is_space c)) pos s k
  | Dot => one (fun c => negb (is_newline c)) pos s k
  | Cat r1 r2 => exec r1 pos s (fun pos' s' => exec r2 pos' s' k)
  | Alt r1 r2 => exec r1 pos s k || exec r2 pos s k
  | Star r1 => star_iter (exec r1) k (String.length s) pos s
  end.

(** [re.match(pattern, string)] as a truth value: the pattern matches at
    the start of the string; what follows the match is not looked at. *)
Definition re_match (pattern : regex) (string : string) : bool :=
  exec pattern 0 string (fun _ _ => true).

(** What the patterns mean, without an algorithm: [matches r pos s pos' s']
    says that [r], applied at offset [pos] where the text [s] remains,
    can match up to offset [pos'], where [s'] remains. *)
Inductive matches : regex -> nat -> string -> nat -> string -> Prop :=
| M_Bol s :
    matches Bol 0 s 0 s
| M_Eol pos s :
    at_eol s = true -> matches Eol pos s pos s
| M_Lit p pos s :
    matches (Lit p) pos (p ++ s) (pos + String.length p) s
| M_Digit pos c s :
    is_digit c = true -> matches Digit pos (String c s) (S pos) s
| M_NonSpace pos c s :
    is_space c = false -> matches NonSpace pos (String c s) (S pos) s
| M_Dot pos c s :
    is_newline c = false -> matches Dot pos (String c s) (S pos) s
| M_Cat r1 r2 pos s pos1 s1 pos2 s2 :
    matches r1 pos s pos1 s1 -> matches r2 pos1 s1 pos2 s2 ->
    matches (Cat r1 r2) pos s pos2 s2
| M_Alt_l r1 r2 pos s pos' s' :
    matches r1 pos s pos' s' -> matches (Alt r1 r2) pos s pos' s'
| M_Alt_r r1 r2 pos s pos' s' :
    matches r2 pos s pos' s' -> matches (Alt r1 r2) pos s pos' s'
| M_Star_stop r pos s :
    matches (Star r) pos s pos s
| M_Star_more r pos s pos1 s1 pos2 s2 :
    matches r pos s pos1 s1 -> matches (Star r) pos1 s1 pos2 s2 ->
    matches (Star r) pos s pos2 s2.

End Re.

Import Re.
Local Open Scope regex_scope.

(* ------------------------------------------------------------------ *)
(** *** The pattern table (lines 8 to 33 of the source) *)
(* ------------------------------------------------------------------ *)

(* r"^(\d+):$" *)
Definition major_vers_pattern : regex :=
  Bol >> Plus Digit >> Lit ":" >> Eol.

(* r"^  - task: " *)
Definition task_pattern : regex :=
  Bol >> Lit "  - task: ".

(* r"^  - task: http(.+)$" *)
Definition task_extended_pattern : regex :=
  Bol >> Lit "  - task: http" >> Plus Dot >> Eol.

(* stm32|avr|at32 *)
Definition arch_name : regex :=
  Lit "stm32" <|> Lit "avr" <|> Lit "at32".

(* r"^    arch: (stm32|avr|at32)(, (stm32|avr|at32))*$" *)
Definition arch_pattern : regex :=
  Bol >> Lit "    arch: " >> arch_name >> Star (Lit ", " >> arch_name) >> Eol.

(* r"^    (feature|bug|internal|info): \|$" *)
Definition task_type_pattern : regex :=
  Bol >> Lit "    "
      >> (Lit "feature" <|> Lit "bug" <|> Lit "internal" <|> Lit "info")
      >> Lit ": |" >> Eol.

(* r"^      \S(.* )", the group written here with a blank before its
   closing parenthesis *)
Definition description_initial_pattern : regex :=
  Bol >> Lit "      " >> NonSpace >> Star Dot.

(* r"^      (.* )", same remark *)
Definition description_pattern : regex :=
  Bol >> Lit "      " >> Star Dot.

(* r"^$" *)
Definition separator_pattern : regex :=
  Bol >> Eol.

(* release|prerelease *)
Definition release_kind : regex :=
  Lit "release" <|> Lit "prerelease".

(* r"^  - (release|prerelease): " *)
Definition release_pattern : regex :=
  Bol >> Lit "  - " >> release_kind >> Lit ": ".

(* r"^  - (release|prerelease): (\d+)$" *)
Definition release_extended_pattern : regex :=
  Bol >> Lit "  - " >> release_kind >> Lit ": " >> Plus Digit >> Eol.

(* r"^    date: \d{2}\.\d{2}\.\d{2}$" *)
Definition date_pattern : regex :=
  Bol >> Lit "    date: " >> Twice Digit >> Lit "." >> Twice Digit
      >> Lit "." >> Twice Digit >> Eol.

(* r"^    dependencies:( \[\])*$" *)
Definition dependencies_pattern : regex :=
  Bol >> Lit "    dependencies:" >> Star (Lit " []") >> Eol.

(* r"^    base: (\d+)*$" *)
Definition base_pattern : regex :=
  Bol >> Lit "    base: " >> Star (Plus Digit) >> Eol.

(* r"^    protocol: (\d+)$" *)
Definition protocol_pattern : regex :=
  Bol >> Lit "    protocol: " >> Plus Digit >> Eol.

(** The two patterns written in place in the methods. *)

(* r"^  \S"   (validate_initial) *)
Definition indent2_pattern : regex :=
  Bol >> Lit "  " >> NonSpace.

(* r"^    \S"   (parse_task, parse_release) *)
Definition indent4_pattern : regex :=
  Bol >> Lit "    " >> NonSpace.

Local Close Scope regex_scope.

(* ================================================================== *)
(** ** The parser object *)
(* ================================================================== *)

(** The keys of the dictionary [self.state]. *)
Inductive key : Type :=
| major_ver | task | arch | type | description
| release | date | dependencies | base | protocol.

(** [self.state]: every key is present from [reset_state] on and no
    method adds or removes one, so the dictionary is a record with one
    boolean per key. *)
Record flags : Type := mkFlags {
  f_major_ver : bool;
  f_task : bool;
  f_arch : bool;
  f_type : bool;
  f_description : bool;
  f_release : bool;
  f_date : bool;
  f_dependencies : bool;
  f_base : bool;
  f_protocol : bool
}.

(** [self.state[k]] *)
Definition get (st : flags) (k : key) : bool :=
  match k with
  | major_ver => f_major_ver st
  | task => f_task st
  | arch => f_arch st
  | type => f_type st
  | description => f_description st
  | release => f_release st
  | date => f_date st
  | dependencies => f_dependencies st
  | base => f_base st
  | protocol => f_protocol st
  end.

(** [self.state[k] = v] *)
Definition set (k : key) (v : bool) (st : flags) : flags :=
  let (mv, tk, ar, ty, de, re, da, dp, bs, pr) := st in
  match k with
  | major_ver => mkFlags v tk ar ty de re da dp bs pr
  | task => mkFlags mv v ar ty de re da dp bs pr
  | arch => mkFlags mv tk v ty de re da dp bs pr
  | type => mkFlags mv tk ar v de re da dp bs pr
  | description => mkFlags mv tk ar ty v re da dp bs pr
  | release => mkFlags mv tk ar ty de v da dp bs pr
  | date => mkFlags mv tk ar ty de re v dp bs pr
  | dependencies => mkFlags mv tk ar ty de re da v bs pr
  | base => mkFlags mv tk ar ty de re da dp v pr
  | protocol => mkFlags mv tk ar ty de re da dp bs v
  end.

(** The object: the current line number and the flags. *)
Record YamlParser : Type := mkParser {
  line_number : nat;
  state : flags
}.

(** What [raise_error] prints before it leaves the process: the line
    number, the offending line and the expected construct.  (The printed
    text also names the file behind standard input, which the
    environment supplies.) *)
Record diagnostic : Type := mkDiagnostic {
  d_line_number : nat;
  d_line : string;
  d_expected : string
}.

(** A method either returns, with the object as it left it, or ends the
    process through [raise_error]. *)
Inductive result : Type :=
| Returns (self : YamlParser)
| Exits (d : diagnostic).

Notation "self .[ k ]" := (get (state self) k)
  (at level 1, left associativity, format "self .[ k ]").

Definition assign (self : YamlParser) (k : key) (v : bool) : YamlParser :=
  mkParser (line_number self) (set k v (state self)).

(** [reset_state] *)
Definition reset_state (self : YamlParser) : YamlParser :=
  mkParser (line_number self)
    {| f_major_ver := false; f_task := false; f_arch := false;
       f_type := false; f_description := false; f_release := false;
       f_date := false; f_dependencies := false; f_base := false;
       f_protocol := false |}.

(** [__init__] *)
Definition init : YamlParser :=
  reset_state (mkParser 0 (mkFlags false false false false false
                                   false false false false false)).

(** [reset_release_state]: the loop over the seven keys. *)
Definition reset_release_state (self : YamlParser) : YamlParser :=
  fold_left (fun self key => assign self key false)
    [release; date; dependencies; base; protocol; description; type] self.

(** [set_current_line_number] *)
Definition set_current_line_number (self : YamlParser) (number : nat)
    : YamlParser :=
  mkParser number (state self).

(** [raise_error]: print and [exit(1)]. *)
Definition raise_error (self : YamlParser) (line message : string) : result :=
  Exits (mkDiagnostic (line_number self) line message).

(** [validate_initial].  The first [if] has no [else], but [raise_error]
    does not come back, so what follows it runs only when the test
    fails.  Every path ends in [raise_error]; the last branch stands for
    falling off the end of the [elif] chain. *)
Definition validate_initial (self : YamlParser) (string : string) : result :=
  if negb (re_match indent2_pattern string) then
    raise_error self string "2 spaces `  ` before {task,release}"
  else if negb (re_match task_pattern string)
          && negb (re_match release_pattern string) then
    raise_error self string "`  - {task,release}:`"
  else if re_match task_pattern string then
    raise_error self string "`  - task: <link-to-task>`"
  else if re_match release_pattern string then
    raise_error self string "`  - release: <minor-version-number>`"
  else Returns self.

(** [parse_initial] *)
Definition parse_initial (self : YamlParser) (string : string) : result :=
  if re_match task_extended_pattern string then
    Returns (assign self task true)
  else if re_match release_extended_pattern string then
    Returns (assign self release true)
  else validate_initial self string.

(** [parse_task].  Each [return] of the source is a [Returns] here, each
    [raise_error] an [Exits]; the tests are taken in the order of the
    source, with the same nesting. *)
Definition parse_task (self : YamlParser) (string : string) : result :=
  if negb (re_match indent4_pattern string)
     && negb self.[type]
     && negb (re_match separator_pattern string) then
    raise_error self string "indent 4 spaces `    `"
  else if re_match arch_pattern string then
    Returns (assign self arch true)
  else if negb self.[arch] then
    raise_error self string "`    arch: {stm32,avr,at32}`"
  else if self.[arch] then
    if re_match task_type_pattern string then
      Returns (assign self type true)
    else if negb self.[type] then
      raise_error self string "`    {feature,bug,internal}: |`"
    else if self.[type] then
      if re_match separator_pattern string && self.[description] then
        Returns (reset_state self)
      else if re_match description_initial_pattern string then
        Returns (assign self description true)
      else if self.[description]
              && re_match description_pattern string then
        Returns self
      else raise_error self string "`      <description>`"
    else Returns self
  else Returns self.

(** The end of [parse_release], entered once [protocol] is set and the
    line is no type line: a blank line resets the release flags (and the
    method goes on, without [return]); the description part runs when
    the [type] flag is still set after that. *)
Definition parse_release_tail (self : YamlParser) (string : string)
    : result :=
  let self :=
    if re_match separator_pattern string then reset_release_state self
    else self in
  if self.[type] then
    if re_match separator_pattern string && self.[description] then
      Returns (reset_release_state self)
    else if re_match description_initial_pattern string then
      Returns (assign self description true)
    else if self.[description]
            && re_match description_pattern string then
      Returns self
    else raise_error self string "`      <description>`"
  else Returns self.

(** [parse_release] *)
Definition parse_release (self : YamlParser) (string : string) : result :=
  if negb (re_match indent4_pattern string)
     && negb self.[type]
     && negb (re_match separator_pattern string) then
    raise_error self string "indent 4 spaces `    `"
  else if re_match date_pattern string then
    Returns (assign self date true)
  else if negb self.[date] then
    raise_error self string "`    date: <dd.mm.yy>`"
  else if self.[date] then
    if re_match dependencies_pattern string then
      Returns (assign self dependencies true)
    else if re_match base_pattern string then
      Returns (assign self base true)
    else if negb self.[dependencies] then
      raise_error self string "`    dependencies:`"
    else if self.[dependencies] then
      if re_match protocol_pattern string then
        Returns (assign self protocol true)
      else if negb self.[protocol] then
        raise_error self string "`    protocol: <number-of-protocol>`"
      else if self.[protocol] then
        if re_match task_type_pattern string then
          Returns (assign self type true)
        else parse_release_tail self string
      else Returns self
    else Returns self
  else Returns self.

(** [parse_line] *)
Definition parse_line (self : YamlParser) (string : string) : result :=
  if re_match major_vers_pattern string then
    Returns (assign self major_ver true)
  else if negb self.[task] && negb self.[release] then
    parse_initial self string
  else if self.[task] then
    parse_task self string
  else if self.[release] then
    parse_release self string
  else Returns self.

(* ================================================================== *)
(** ** The driver *)
(* ================================================================== *)

(** How a run ends: the loop reaches the end of standard input and
    prints [Parsed successfully!], or a method left the process with
    status 1 after printing a diagnostic. *)
Inductive outcome : Type :=
| ParsedSuccessfully
| Failed (d : diagnostic).

(** The [while True] loop of [parse_yaml] over the lines that [input()]
    will deliver; [input()] raises [EOFError] when none is left.
    [enumerator] is the counter before its increment. *)
Fixpoint read_loop (parser : YamlParser) (enumerator : nat)
    (stdin : list string) : result :=
  let enumerator := S enumerator in
  match stdin with
  | [] => Returns parser
  | line :: rest =>
      let parser := set_current_line_number parser enumerator in
      match parse_line parser line with
      | Returns parser => read_loop parser enumerator rest
      | Exits d => Exits d
      end
  end.

(** Modelled from the spec: the driver builds its parser with
    [ModemYamlParser()], a class the file does not define; the
    validation engine the spec describes is the class [YamlParser] of
    the file (whose [parse_release] is documented as the extended one),
    so the driver is given that object. *)
Definition ModemYamlParser : YamlParser := init.

(** [parse_yaml] *)
Definition parse_yaml (stdin : list string) : outcome :=
  let parser := ModemYamlParser in
  match read_loop parser 0 stdin with
  | Returns _ => ParsedSuccessfully
  | Exits d => Failed d
  end.

(* ================================================================== *)
(** ** Vocabulary of the properties *)
(* ================================================================== *)

(** The three modes of the dispatch in [parse_line]. *)
Inductive mode : Type := Undetermined | InTask | InRelease.

Definition mode_of (self : YamlParser) : option mode :=
  match self.[task], self.[release] with
  | false, false => Some Undetermined
  | true, false => Some InTask
  | false, true => Some InRelease
  | true, true => None
  end.

(** The task block is open and a description line was already read. *)
Definition in_task_description (self : YamlParser) : bool :=
  self.[task] && self.[arch] && self.[type] && self.[description].

(** The number of blanks a line starts with. *)
Fixpoint leading_spaces (s : string) : nat :=
  match s with
  | EmptyString => 0
  | String c s' => if Ascii.eqb c " " then S (leading_spaces s') else 0
  end.

(** [n] copies of the bracket pair of a dependencies line. *)
Fixpoint brackets (n : nat) : string :=
  match n with
  | O => ""
  | S n => " []" ++ brackets n
  end.

(** The optional parts of a release block. *)
Definition optional_line (l : option string) : list string :=
  match l with
  | Some l => [l]
  | None => []
  end.

Definition optional_section (t : option (string * string * list string))
    : list string :=
  match t with
  | Some (type_line, first, more) => type_line :: first :: more
  | None => []
  end.

Definition base_line_ok (l : option string) : Prop :=
  match l with
  | Some l => re_match base_pattern l = true
  | None => True
  end.

Definition section_ok (t : option (string * string * list string)) : Prop :=
  match t with
  | Some (type_line, first, more) =>
      re_match task_type_pattern type_line = true
      /\ re_match description_initial_pattern first = true
      /\ Forall (fun l => re_match description_pattern l = true) more
  | None => True
  end.

(** The texts [raise_error] is called with, in the order of the
    source. *)
Definition expected_texts : list string :=
  [ "2 spaces `  ` before {task,release}";
    "`  - {task,release}:`";
    "`  - task: <link-to-task>`";
    "`  - release: <minor-version-number>`";
    "indent 4 spaces `    `";
    "`    arch: {stm32,avr,at32}`";
    "`    {feature,bug,internal}: |`";
    "`      <description>`";
    "`    date: <dd.mm.yy>`";
    "`    dependencies:`";
    "`    protocol: <number-of-protocol>`" ].

(** The flags as a position in one of the two block grammars: with no
    block open nothing but [major_ver] is set; in a task block no
    release field is set and each flag asks for the one before it; in a
    release block [arch] is not set and each flag asks for the one
    before it. *)
Definition consistent (st : flags) : bool :=
  match f_task st, f_release st with
  | false, false =>
      negb (f_arch st || f_type st || f_description st || f_date st
            || f_dependencies st || f_base st || f_protocol st)
  | true, false =>
      negb (f_date st || f_dependencies st || f_base st || f_protocol st)
      && implb (f_type st) (f_arch st)
      && implb (f_description st) (f_type st)
  | false, true =>
      negb (f_arch st)
      && implb (f_dependencies st) (f_date st)
      && implb (f_base st) (f_date st)
      && implb (f_protocol st) (f_dependencies st)
      && implb (f_type st) (f_protocol st)
      && implb (f_description st) (f_type st)
  | true, true => false
  end.

(** The flags without the two that no method reads. *)
Definition read_flags (st : flags) : flags :=
  set major_ver false (set base false st).

(** Two results that differ at most in the flags nobody reads and in the
    line number. *)
Definition same_decision (r1 r2 : result) : Prop :=
  match r1, r2 with
  | Returns p1, Returns p2 => read_flags (state p1) = read_flags (state p2)
  | Exits d1, Exits d2 =>
      d_line d1 = d_line d2 /\ d_expected d1 = d_expected d2
  | _, _ => False
  end.

Definition is_marker (line : string) : bool :=
  re_match major_vers_pattern line.

(** The eleven kinds of line of the grammar, by their patterns. *)
Definition line_kinds : list regex :=
  [ major_vers_pattern; task_extended_pattern; release_extended_pattern;
    arch_pattern; task_type_pattern; description_pattern;
    separator_pattern; date_pattern; dependencies_pattern; base_pattern;
    protocol_pattern ].

(** The items of a changelog: a major version marker, a task block, a
    release block. *)
Inductive item : Type :=
| Marker (line : string)
| TaskBlock (decl arch_line type_line first : string) (more : list string)
| ReleaseBlock (decl date_line : string) (base_line : option string)
    (deps_line protocol_line : string)
    (trailer : option (string * string * list string)).

Definition item_lines (i : item) : list string :=
  match i with
  | Marker line => [line]
  | TaskBlock decl arch_line type_line first more =>
      [decl; arch_line; type_line; first] ++ more ++ [""]
  | ReleaseBlock decl date_line base_line deps_line protocol_line trailer =>
      [decl; date_line] ++ optional_line base_line
      ++ [deps_line; protocol_line] ++ optional_section trailer ++ [""]
  end.

Definition item_ok (i : item) : Prop :=
  match i with
  | Marker line => re_match major_vers_pattern line = true
  | TaskBlock decl arch_line type_line first more =>
      re_match task_extended_pattern decl = true
      /\ re_match arch_pattern arch_line = true
      /\ re_match task_type_pattern type_line = true
      /\ re_match description_initial_pattern first = true
      /\ Forall (fun l => re_match description_pattern l = true) more
  | ReleaseBlock decl date_line base_line deps_line protocol_line trailer =>
      re_match release_extended_pattern decl = true
      /\ re_match date_pattern date_line = true
      /\ base_line_ok base_line
      /\ re_match dependencies_pattern deps_line = true
      /\ re_match protocol_pattern protocol_line = true
      /\ section_ok trailer
  end.

(** A text of digits. *)
Fixpoint all_digits (u : string) : bool :=
  match u with
  | EmptyString => true
  | String c u' => is_digit c && all_digits u'
  end.

(** A text whose characters all satisfy [P]; a line as [input()] gives
    it has no line feed. *)
Fixpoint every (P : ascii -> bool) (u : string) : bool :=
  match u with
  | EmptyString => true
  | String c u' => P c && every P u'
  end.

Definition no_line_feed (u : string) : bool :=
  every (fun c => negb (is_newline c)) u.

(** The architecture names, and a list of them as an architecture
    line writes it. *)
Definition arch_names : list string := ["stm32"; "avr"; "at32"].

Fixpoint more_names (ws : list string) : string :=
  match ws with
  | [] => ""
  | w :: ws => ", " ++ w ++ more_names ws
  end.

(* ------------------------------------------------------------------ *)
(** *** The error printer (lines 37 to 49 and 290 to 292 of the source) *)
(* ------------------------------------------------------------------ *)

Definition line_feed : string := String newline "".

(** The message the wrapper [error] builds for one expected construct
    [arg], from the first two arguments of the call. *)
Definition error_message (args0 args1 arg : string) : string :=
  "ERROR of file structure at " ++ args0 ++ ":" ++ line_feed
  ++ args1 ++ line_feed ++ "Expected: " ++ arg.

(** The [wrapper] of [error] on its arguments: one message for each argument from the third on.
    The first two arguments are only looked at when there is a third,
    so the defaults of [nth] are never used. *)
Definition error (args : list string) : list string :=
  map (error_message (nth 0 args "") (nth 1 args "")) (skipn 2 args).

(** [print] on the messages: the arguments with a blank between them and a line
    feed at the end. *)
Definition print (args : list string) : string :=
  String.concat " " args ++ line_feed.

(** [error_print] on its arguments *)
Definition error_print (args : list string) : string :=
  print (error args).

(** A line number as [f', line {self.line_number}'] writes it. *)
Definition decimal (n : nat) : string :=
  NilEmpty.string_of_uint (Nat.to_uint n).

(** What [raise_error] prints before [exit(1)], given the name [fd0] that
    [os.readlink('/proc/self/fd/0')] returns. *)
Definition raise_error_output (fd0 : string) (d : diagnostic) : string :=
  error_print
    [ fd0 ++ ", line " ++ decimal (d_line_number d);
      "`" ++ d_line d ++ "`";
      d_expected d ].

(* ================================================================== *)
(** ** The matcher finds the declared matches, and only those *)
(* ================================================================== *)

Section Matcher.

Lemma strip_prefix_app (p s : string) : strip_prefix p (p ++ s) = Some s.
Proof.
  induction p as [|a p IH]; simpl; [reflexivity|].
  now rewrite Ascii.eqb_refl.
Qed.

Lemma strip_prefix_inv (p : string) :
  forall s s', strip_prefix p s = Some s' -> s = p ++ s'.
Proof.
  induction p as [|a p IH]; simpl; intros s s' H.
  - congruence.
  - destruct s as [|b s]; [discriminate|].
    destruct (Ascii.eqb_spec a b) as [->|]; [|discriminate].
    f_equal. now apply IH.
Qed.

Lemma length_app (u v : string) :
  String.length (u ++ v) = String.length u + String.length v.
Proof. induction u as [|c u IH]; simpl; [reflexivity | now rewrite IH]. Qed.

Lemma app_assoc_string (u v w : string) : (u ++ v) ++ w = u ++ (v ++ w).
Proof. induction u as [|c u IH]; simpl; [reflexivity | now rewrite IH]. Qed.

Lemma app_empty_r (u : string) : u ++ "" = u.
Proof. induction u as [|c u IH]; simpl; [reflexivity | now rewrite IH]. Qed.

(** A match consumes a prefix of the text and advances the offset by its
    length. *)
Lemma matches_consumes r pos s pos' s' :
  matches r pos s pos' s' ->
  exists u, s = u ++ s' /\ pos' = pos + String.length u.
Proof.
  induction 1 as
    [ s | pos s _ | p pos s | pos c s _ | pos c s _ | pos c s _
    | r1 r2 pos s pos1 s1 pos2 s2 _ IH1 _ IH2
    | r1 r2 pos s pos' s' _ IH | r1 r2 pos s pos' s' _ IH
    | r pos s | r pos s pos1 s1 pos2 s2 _ IH1 _ IH2 ];
    try (exists ""; split; [reflexivity | simpl; lia]);
    try (exists (String c ""); split; [reflexivity | simpl; lia]);
    try exact IH.
  - exists p. split; reflexivity.
  - destruct IH1 as (u1 & -> & ->), IH2 as (u2 & -> & ->).
    exists (u1 ++ u2). rewrite app_assoc_string, length_app.
    split; [reflexivity | lia].
  - destruct IH1 as (u1 & -> & ->), IH2 as (u2 & -> & ->).
    exists (u1 ++ u2). rewrite app_assoc_string, length_app.
    split; [reflexivity | lia].
Qed.

(** A match that leaves the text as long as it was consumed nothing. *)
Lemma matches_no_progress r pos s pos' s' :
  matches r pos s pos' s' ->
  String.length s <= String.length s' ->
  s' = s /\ pos' = pos.
Proof.
  intros H L. apply matches_consumes in H as (u & -> & ->).
  rewrite length_app in L.
  destruct u as [|c u]; simpl in *; [split; [reflexivity | lia] | lia].
Qed.

Lemma one_sound cls pos s k :
  one cls pos s k = true ->
  exists c s', s = String c s' /\ cls c = true /\ k (S pos) s' = true.
Proof.
  destruct s as [|c s']; simpl; [discriminate|].
  intros H. apply andb_true_iff in H as [H1 H2]. now exists c, s'.
Qed.

(** Soundness of the loop of a star, given that of its operand. *)
Lemma star_iter_sound r k :
  (forall pos s k',
      exec r pos s k' = true ->
      exists pos' s', matches r pos s pos' s' /\ k' pos' s' = true) ->
  forall fuel pos s,
    star_iter (exec r) k fuel pos s = true ->
    exists pos' s', matches (Star r) pos s pos' s' /\ k pos' s' = true.
Proof.
  intros Hr. induction fuel as [|fuel IH]; intros pos s H; simpl in H.
  - exists pos, s. split; [constructor | exact H].
  - apply orb_true_iff in H as [H|H].
    + apply Hr in H as (pos1 & s1 & M1 & H).
      apply andb_true_iff in H as [_ H].
      apply IH in H as (pos2 & s2 & M2 & H).
      exists pos2, s2. split; [|exact H].
      eapply M_Star_more; eassumption.
    + exists pos, s. split; [constructor | exact H].
Qed.

Theorem exec_sound r :
  forall pos s k,
    exec r pos s k = true ->
    exists pos' s', matches r pos s pos' s' /\ k pos' s' = true.
Proof.
  induction r as [ | | p | | | | r1 IH1 r2 IH2 | r1 IH1 r2 IH2 | r IH ];
    intros pos s k H; cbn [exec] in H.
  - apply andb_true_iff in H as [P H]. apply Nat.eqb_eq in P. subst pos.
    exists 0, s. split; [constructor | exact H].
  - apply andb_true_iff in H as [E H].
    exists pos, s. split; [now constructor | exact H].
  - destruct (strip_prefix p s) as [s'|] eqn:E; [|discriminate].
    apply strip_prefix_inv in E. subst s.
    exists (pos + String.length p), s'. split; [constructor | exact H].
  - apply one_sound in H as (c & s' & -> & C & H).
    exists (S pos), s'. split; [now constructor | exact H].
  - apply one_sound in H as (c & s' & -> & C & H).
    apply negb_true_iff in C.
    exists (S pos), s'. split; [now constructor | exact H].
  - apply one_sound in H as (c & s' & -> & C & H).
    apply negb_true_iff in C.
    exists (S pos), s'. split; [now constructor | exact H].
  - apply IH1 in H as (pos1 & s1 & M1 & H).
    apply IH2 in H as (pos2 & s2 & M2 & H).
    exists pos2, s2. split; [|exact H]. econstructor; eassumption.
  - apply orb_true_iff in H as [H|H].
    + apply IH1 in H as (pos' & s' & M & H).
      exists pos', s'. split; [now apply M_Alt_l | exact H].
    + apply IH2 in H as (pos' & s' & M & H).
      exists pos', s'. split; [now apply M_Alt_r | exact H].
  - eapply star_iter_sound; eassumption.
Qed.

(** Completeness of the loop of a star, given that of its operand: fuel
    that covers the text is enough. *)
Lemma star_iter_complete r k :
  (forall pos s pos' s' k',
      matches r pos s pos' s' -> k' pos' s' = true ->
      exec r pos s k' = true) ->
  forall pos s pos' s',
    matches (Star r) pos s pos' s' ->
    k pos' s' = true ->
    forall fuel, String.length s <= fuel ->
    star_iter (exec r) k fuel pos s = true.
Proof.
  intros Hr pos s pos' s' M.
  remember (Star r) as sr eqn:E.
  induction M as
    [ | | | | | | | |
    | r0 pos s | r0 pos s pos1 s1 pos2 s2 M1 _ M2 IH2 ];
    try discriminate; injection E as ->; intros K fuel L.
  - destruct fuel; simpl; [exact K|]. rewrite K. apply orb_true_r.
  - destruct (Nat.ltb_spec (String.length s1) (String.length s)) as [P|P].
    + destruct fuel as [|fuel]; [lia|]. simpl.
      apply orb_true_iff. left.
      apply (Hr _ _ _ _ _ M1).
      apply andb_true_iff. split; [now apply Nat.ltb_lt|].
      apply IH2; [reflexivity | exact K | lia].
    + destruct (matches_no_progress _ _ _ _ _ M1 P) as [-> ->].
      apply IH2; [reflexivity | exact K | exact L].
Qed.

Theorem exec_complete r :
  forall pos s pos' s' k,
    matches r pos s pos' s' -> k pos' s' = true ->
    exec r pos s k = true.
Proof.
  induction r as [ | | p | | | | r1 IH1 r2 IH2 | r1 IH1 r2 IH2 | r IH ];
    intros pos s pos' s' k M K; cbn [exec].
  - inversion M; subst. exact K.
  - inversion M; subst. apply andb_true_iff. now split.
  - inversion M; subst. now rewrite strip_prefix_app.
  - inversion M; subst. simpl. apply andb_true_iff. now split.
  - inversion M; subst. simpl. apply andb_true_iff.
    split; [now apply negb_true_iff | exact K].
  - inversion M; subst. simpl. apply andb_true_iff.
    split; [now apply negb_true_iff | exact K].
  - inversion M as [ | | | | | | ? ? ? ? pos1 s1 ? ? M1 M2 | | | | ]; subst.
    apply (IH1 _ _ _ _ _ M1). now apply (IH2 _ _ _ _ _ M2).
  - apply orb_true_iff.
    inversion M; subst; [left | right]; eauto.
  - eapply star_iter_complete; eauto.
Qed.

(** [re.match] succeeds exactly when the pattern has a match at the
    start of the string. *)
Theorem re_match_spec (pattern : regex) (s : string) :
  re_match pattern s = true <->
  exists pos' s', matches pattern 0 s pos' s'.
Proof.
  unfold re_match. split.
  - intros H. apply exec_sound in H as (pos' & s' & M & _).
    now exists pos', s'.
  - intros (pos' & s' & M). now apply (exec_complete _ _ _ _ _ _ M).
Qed.

End Matcher.

(* ================================================================== *)
(** ** Shapes of the lines the patterns accept *)
(* ================================================================== *)

Section Shapes.

Local Arguments re_match : simpl never.

(** A literal inside a pattern: the text starts with it and the rest of
    the pattern goes on behind it. *)
Lemma exec_lit_inv (p : string) pos s k :
  exec (Lit p) pos s k = true ->
  exists rest, s = p ++ rest /\ k (pos + String.length p) rest = true.
Proof.
  simpl. destruct (strip_prefix p s) as [rest|] eqn:E; [|discriminate].
  intros H. exists rest. split; [now apply strip_prefix_inv | exact H].
Qed.

Lemma exec_lit_app (p : string) pos rest k :
  exec (Lit p) pos (p ++ rest) k = k (pos + String.length p) rest.
Proof. simpl. now rewrite strip_prefix_app. Qed.

(** An anchored pattern that opens with a literal. *)
Lemma anchored_lit_inv (p : string) (r : regex) (s : string) :
  re_match (Cat Bol (Cat (Lit p) r)) s = true ->
  exists rest, s = p ++ rest
               /\ exec r (String.length p) rest (fun _ _ => true) = true.
Proof.
  unfold re_match. intros H. simpl in H.
  destruct (strip_prefix p s) as [rest|] eqn:E; [|discriminate].
  exists rest. split; [now apply strip_prefix_inv | exact H].
Qed.

(** A star whose continuation accepts the current position matches. *)
Lemma exec_star_here (r : regex) pos s k :
  k pos s = true -> exec (Star r) pos s k = true.
Proof.
  intros H. simpl. destruct (String.length s); simpl; [exact H|].
  rewrite H. apply orb_true_r.
Qed.

(** [description_pattern] asks for six leading blanks and nothing more. *)
Lemma description_pattern_spec (s : string) :
  re_match description_pattern s = true <-> exists rest, s = "      " ++ rest.
Proof.
  split.
  - intros H. apply anchored_lit_inv in H as (rest & -> & _). now exists rest.
  - intros [rest ->]. unfold re_match, description_pattern.
    cbn [exec]. rewrite strip_prefix_app. cbn [Nat.eqb andb].
    destruct (String.length rest); [reflexivity | apply orb_true_r].
Qed.

Lemma description_initial_shape (s : string) :
  re_match description_initial_pattern s = true ->
  exists c rest, s = "      " ++ String c rest /\ is_space c = false.
Proof.
  intros H. apply anchored_lit_inv in H as (rest & -> & H).
  destruct rest as [|c rest]; [discriminate|].
  cbn [exec one] in H. apply andb_true_iff in H as [H _].
  exists c, rest. split; [reflexivity | now apply negb_true_iff].
Qed.

Lemma description_initial_is_description (s : string) :
  re_match description_initial_pattern s = true ->
  re_match description_pattern s = true.
Proof.
  intros H. apply description_initial_shape in H as (c & rest & -> & _).
  apply description_pattern_spec. now exists (String c rest).
Qed.

(** [separator_pattern]: the empty line (or a lone line feed, which
    [input()] never delivers). *)
Lemma separator_pattern_spec (s : string) :
  re_match separator_pattern s = true <-> s = "" \/ s = String newline "".
Proof.
  unfold re_match, separator_pattern. cbn [exec Nat.eqb andb].
  rewrite andb_true_r. destruct s as [|c [|d s]]; cbn [at_eol].
  - tauto.
  - unfold is_newline. destruct (Ascii.eqb_spec c newline) as [->|N].
    + tauto.
    + split; [discriminate|]. intros [E|E]; [discriminate|].
      injection E as E. contradiction.
  - split; [discriminate|]. intros [E|E]; discriminate.
Qed.

(** A major version marker starts with a digit. *)
Lemma major_vers_shape (s : string) :
  re_match major_vers_pattern s = true ->
  exists c rest, s = String c rest /\ is_digit c = true.
Proof.
  unfold re_match, major_vers_pattern, Plus. cbn [exec Nat.eqb andb].
  destruct s as [|c rest]; cbn [one]; [discriminate|].
  intros H. apply andb_true_iff in H as [H _]. now exists c, rest.
Qed.

(** [indent4_pattern]: four blanks, then a character that is no white
    space. *)
Lemma indent4_shape (s : string) :
  re_match indent4_pattern s = true <->
  exists c rest, s = "    " ++ String c rest /\ is_space c = false.
Proof.
  split.
  - intros H. apply anchored_lit_inv in H as (rest & -> & H).
    destruct rest as [|c rest]; [discriminate|].
    cbn [exec one] in H. rewrite andb_true_r in H.
    exists c, rest. split; [reflexivity | now apply negb_true_iff].
  - intros (c & rest & -> & Hc). unfold re_match, indent4_pattern.
    cbn. now rewrite Hc.
Qed.

(** Peel the literals that open an alternative off the text [rest]. *)
Ltac split_literals H rest :=
  match type of H with
  | context [strip_prefix ?w rest] =>
      let r1 := fresh "r" in
      let E1 := fresh "E" in
      destruct (strip_prefix w rest) as [r1|] eqn:E1; [|discriminate];
      apply strip_prefix_inv in E1; subst rest;
      match type of H with
      | context [strip_prefix ?w2 r1] =>
          let r2 := fresh "r" in
          let E2 := fresh "E" in
          destruct (strip_prefix w2 r1) as [r2|] eqn:E2; [|discriminate];
          apply strip_prefix_inv in E2; subst r1; exists r2
      end
  end.

(** The four type lines. *)
Lemma task_type_shape (s : string) :
  re_match task_type_pattern s = true ->
  exists rest,
    s = "    feature: |" ++ rest \/ s = "    bug: |" ++ rest
    \/ s = "    internal: |" ++ rest \/ s = "    info: |" ++ rest.
Proof.
  intros H. apply anchored_lit_inv in H as (rest & -> & H).
  cbn [exec] in H.
  repeat match type of H with
  | orb _ _ = true => apply orb_true_iff in H as [H|H]
  end; split_literals H rest; cbn; tauto.
Qed.

(** The two declarations of a release. *)
Lemma release_extended_shape (s : string) :
  re_match release_extended_pattern s = true ->
  exists rest, s = "  - release: " ++ rest \/ s = "  - prerelease: " ++ rest.
Proof.
  intros H. apply anchored_lit_inv in H as (rest & -> & H).
  unfold release_kind in H. cbn [exec] in H.
  repeat match type of H with
  | orb _ _ = true => apply orb_true_iff in H as [H|H]
  end; split_literals H rest; cbn; tauto.
Qed.

(** *** What the other tests of the methods answer on a line of a
    given kind.  Each kind is told apart by its first characters. *)

Ltac by_opening H :=
  let rest := fresh "rest" in
  apply anchored_lit_inv in H as (rest & -> & _); repeat split; reflexivity.

Lemma task_declaration_tests (s : string) :
  re_match task_extended_pattern s = true ->
  re_match major_vers_pattern s = false.
Proof. intros H. by_opening H. Qed.

Lemma release_declaration_tests (s : string) :
  re_match release_extended_pattern s = true ->
  re_match major_vers_pattern s = false
  /\ re_match task_extended_pattern s = false.
Proof.
  intros H. apply release_extended_shape in H as [rest [-> | ->]];
    split; reflexivity.
Qed.

Lemma arch_line_tests (s : string) :
  re_match arch_pattern s = true ->
  re_match major_vers_pattern s = false
  /\ re_match indent4_pattern s = true.
Proof. intros H. by_opening H. Qed.

Lemma type_line_tests (s : string) :
  re_match task_type_pattern s = true ->
  re_match major_vers_pattern s = false
  /\ re_match indent4_pattern s = true
  /\ re_match arch_pattern s = false
  /\ re_match date_pattern s = false
  /\ re_match dependencies_pattern s = false
  /\ re_match base_pattern s = false
  /\ re_match protocol_pattern s = false.
Proof.
  intros H. apply task_type_shape in H as [rest [-> | [-> | [-> | ->]]]];
    repeat split; reflexivity.
Qed.

Lemma description_line_tests (s : string) :
  re_match description_pattern s = true ->
  re_match major_vers_pattern s = false
  /\ re_match separator_pattern s = false
  /\ re_match arch_pattern s = false
  /\ re_match task_type_pattern s = false
  /\ re_match date_pattern s = false
  /\ re_match dependencies_pattern s = false
  /\ re_match base_pattern s = false
  /\ re_match protocol_pattern s = false.
Proof. intros H. by_opening H. Qed.

Lemma date_line_tests (s : string) :
  re_match date_pattern s = true ->
  re_match major_vers_pattern s = false
  /\ re_match indent4_pattern s = true.
Proof. intros H. by_opening H. Qed.

Lemma dependencies_line_tests (s : string) :
  re_match dependencies_pattern s = true ->
  re_match major_vers_pattern s = false
  /\ re_match indent4_pattern s = true
  /\ re_match date_pattern s = false.
Proof. intros H. by_opening H. Qed.

Lemma base_line_tests (s : string) :
  re_match base_pattern s = true ->
  re_match major_vers_pattern s = false
  /\ re_match indent4_pattern s = true
  /\ re_match date_pattern s = false
  /\ re_match dependencies_pattern s = false.
Proof. intros H. by_opening H. Qed.

Lemma protocol_line_tests (s : string) :
  re_match protocol_pattern s = true ->
  re_match major_vers_pattern s = false
  /\ re_match indent4_pattern s = true
  /\ re_match date_pattern s = false
  /\ re_match dependencies_pattern s = false
  /\ re_match base_pattern s = false.
Proof. intros H. by_opening H. Qed.

(** A line that opens like a task declaration. *)
Lemma task_pattern_spec (s : string) :
  re_match task_pattern s = true <-> exists rest, s = "  - task: " ++ rest.
Proof.
  unfold re_match, task_pattern. cbn [exec Nat.eqb andb]. split.
  - destruct (strip_prefix "  - task: " s) as [rest|] eqn:E; [|discriminate].
    intros _. exists rest. now apply strip_prefix_inv.
  - intros [rest ->]. now rewrite strip_prefix_app.
Qed.

Lemma task_like_tests (s : string) :
  re_match task_pattern s = true ->
  re_match major_vers_pattern s = false
  /\ re_match release_extended_pattern s = false
  /\ re_match indent2_pattern s = true.
Proof.
  intros H. apply task_pattern_spec in H as [rest ->].
  repeat split; reflexivity.
Qed.

(** The table on a few lines, as a check of its transcription. *)
Example pattern_table_examples :
  re_match major_vers_pattern "12:" = true
  /\ re_match major_vers_pattern "12: " = false
  /\ re_match major_vers_pattern ":" = false
  /\ re_match task_extended_pattern "  - task: http://tracker/123" = true
  /\ re_match task_extended_pattern "  - task: http" = false
  /\ re_match task_extended_pattern " - task: http://tracker/123" = false
  /\ re_match arch_pattern "    arch: stm32, avr" = true
  /\ re_match arch_pattern "    arch: stm32,avr" = false
  /\ re_match arch_pattern "    arch: stm32, avr, at32, avr" = true
  /\ re_match arch_pattern "    arch: " = false
  /\ re_match task_type_pattern "    internal: |" = true
  /\ re_match task_type_pattern "    feature:" = false
  /\ re_match description_initial_pattern "      adds X" = true
  /\ re_match description_initial_pattern "       adds X" = false
  /\ re_match description_pattern "       adds X" = true
  /\ re_match description_pattern "      " = true
  /\ re_match description_pattern "     " = false
  /\ re_match separator_pattern "" = true
  /\ re_match separator_pattern " " = false
  /\ re_match release_extended_pattern "  - prerelease: 12" = true
  /\ re_match release_extended_pattern "  - release: 1a" = false
  /\ re_match release_pattern "  - release: 1a" = true
  /\ re_match date_pattern "    date: 01.02.24" = true
  /\ re_match date_pattern "    date: 1.2.24" = false
  /\ re_match date_pattern "    date: 01.02.2024" = false
  /\ re_match base_pattern "    base: " = true
  /\ re_match base_pattern "    base: 41" = true
  /\ re_match base_pattern "    base:" = false
  /\ re_match protocol_pattern "    protocol: 3" = true
  /\ re_match protocol_pattern "    protocol: " = false
  /\ re_match indent4_pattern "    x" = true
  /\ re_match indent4_pattern "     x" = false.
Proof. repeat split; reflexivity. Qed.

End Shapes.

(* ================================================================== *)
(** ** Modes, runs and the flag invariant *)
(* ================================================================== *)

Arguments re_match : simpl never.

(** Take the conditionals of a method apart, outermost first. *)
Ltac branch_on H :=
  repeat match type of H with
  | context [if ?b then _ else _] =>
      let E := fresh "E" in destruct b eqn:E
  end.

Ltac returned H := injection H as <-.

Section Invariant.

Lemma parse_initial_returns self line self' :
  parse_initial self line = Returns self' ->
  self' = assign self task true \/ self' = assign self release true.
Proof.
  unfold parse_initial, validate_initial, raise_error. intros H.
  destruct (re_match task_extended_pattern line);
    [returned H; now left|].
  destruct (re_match release_extended_pattern line);
    [returned H; now right|].
  branch_on H; discriminate.
Qed.

(** [parse_task] never sets the [release] flag. *)
Lemma parse_task_release self line self' :
  parse_task self line = Returns self' ->
  self'.[release] = true -> self.[release] = true.
Proof.
  unfold parse_task, raise_error. intros H.
  destruct self as [n [mv tk ar ty de re da dp bs pr]].
  branch_on H; try discriminate; returned H; simpl; congruence.
Qed.

(** [parse_release] never touches the [task] flag. *)
Lemma parse_release_task self line self' :
  parse_release self line = Returns self' ->
  self'.[task] = self.[task].
Proof.
  unfold parse_release, parse_release_tail, raise_error. intros H.
  destruct self as [n [mv tk ar ty de re da dp bs pr]].
  simpl in H.
  branch_on H; try discriminate; returned H; reflexivity.
Qed.

Lemma parse_line_exclusive self line self' :
  self.[task] && self.[release] = false ->
  parse_line self line = Returns self' ->
  self'.[task] && self'.[release] = false.
Proof.
  unfold parse_line. intros X H.
  destruct (re_match major_vers_pattern line).
  { returned H. destruct self as [n [mv tk ar ty de re da dp bs pr]].
    exact X. }
  destruct (self.[task]) eqn:T; destruct (self.[release]) eqn:R;
    try discriminate; simpl in H.
  - (* inside a task *)
    destruct (self'.[release]) eqn:R'; [|apply andb_false_r].
    apply (parse_task_release _ _ _ H) in R'. congruence.
  - (* inside a release *)
    apply parse_release_task in H. rewrite H, T. reflexivity.
  - (* no block open *)
    apply parse_initial_returns in H as [-> | ->];
      destruct self as [n [mv tk ar ty de re da dp bs pr]];
      simpl in *; subst; reflexivity.
Qed.

Lemma read_loop_exclusive stdin :
  forall parser n self,
    parser.[task] && parser.[release] = false ->
    read_loop parser n stdin = Returns self ->
    self.[task] && self.[release] = false.
Proof.
  induction stdin as [|line rest IH]; intros parser n self X H; simpl in H.
  - now returned H.
  - destruct (parse_line (set_current_line_number parser (S n)) line)
      as [parser'|d] eqn:E; [|discriminate].
    eapply IH; [|exact H].
    eapply parse_line_exclusive; [|exact E]. exact X.
Qed.

End Invariant.

(** Reading [pre ++ post] is reading [pre], then [post] with the counter
    advanced. *)
Lemma read_loop_app pre :
  forall parser n post,
    read_loop parser n (pre ++ post) =
    match read_loop parser n pre with
    | Returns parser' => read_loop parser' (n + List.length pre) post
    | Exits d => Exits d
    end.
Proof.
  induction pre as [|line pre IH]; intros parser n post; simpl.
  - now rewrite Nat.add_0_r.
  - destruct (parse_line (set_current_line_number parser (S n)) line);
      [|reflexivity].
    rewrite IH. now rewrite Nat.add_succ_r.
Qed.

(* ================================================================== *)
(** ** One line at a time: the steps of a task block *)
(* ================================================================== *)

(** Open the object, so that the flags are variables and the tests on
    them compute. *)
Ltac open_parser self :=
  let n := fresh "n" in
  destruct self as [n [? ? ? ? ? ? ? ? ? ?]]; simpl in *; subst.

Ltac tests_of H lemma :=
  let T := fresh "T" in
  pose proof (lemma _ H) as T;
  repeat match type of T with
  | _ /\ _ => let T1 := fresh "T" in destruct T as [T1 T]
  end.

Ltac rewrite_tests :=
  repeat match goal with
  | T : re_match _ _ = _ |- _ => rewrite T
  end.

Section TaskSteps.

Variable self : YamlParser.
Variable line : string.

Lemma step_task_declaration :
  self.[task] = false -> self.[release] = false ->
  re_match task_extended_pattern line = true ->
  parse_line self line = Returns (assign self task true).
Proof.
  intros T R H. tests_of H task_declaration_tests.
  unfold parse_line, parse_initial. rewrite T, R. rewrite_tests.
  reflexivity.
Qed.

Lemma step_arch :
  self.[task] = true ->
  re_match arch_pattern line = true ->
  parse_line self line = Returns (assign self arch true).
Proof.
  intros T H. tests_of H arch_line_tests.
  unfold parse_line, parse_task. rewrite T. rewrite_tests.
  reflexivity.
Qed.

Lemma step_task_type :
  self.[task] = true -> self.[arch] = true ->
  re_match task_type_pattern line = true ->
  parse_line self line = Returns (assign self type true).
Proof.
  intros T A H. tests_of H type_line_tests.
  unfold parse_line, parse_task. rewrite T, A. rewrite_tests.
  reflexivity.
Qed.

Lemma step_task_description_initial :
  self.[task] = true -> self.[arch] = true -> self.[type] = true ->
  re_match description_initial_pattern line = true ->
  parse_line self line = Returns (assign self description true).
Proof.
  intros T A Ty H.
  tests_of (description_initial_is_description _ H) description_line_tests.
  unfold parse_line, parse_task. rewrite T, A, Ty. rewrite_tests.
  rewrite andb_false_r. reflexivity.
Qed.

Lemma step_task_description :
  self.[task] = true -> self.[arch] = true -> self.[type] = true ->
  self.[description] = true ->
  re_match description_pattern line = true ->
  parse_line self line = Returns self.
Proof.
  intros T A Ty D H. tests_of H description_line_tests.
  unfold parse_line, parse_task. rewrite T, A, Ty, D. rewrite_tests.
  simpl. rewrite andb_false_r.
  destruct (re_match description_initial_pattern line); [|reflexivity].
  f_equal. open_parser self. reflexivity.
Qed.

Lemma step_task_separator :
  self.[task] = true -> self.[arch] = true -> self.[type] = true ->
  self.[description] = true ->
  re_match separator_pattern line = true ->
  parse_line self line = Returns (reset_state self).
Proof.
  intros T A Ty D H.
  assert (M : re_match major_vers_pattern line = false).
  { apply separator_pattern_spec in H as [-> | ->]; reflexivity. }
  assert (Ar : re_match arch_pattern line = false).
  { apply separator_pattern_spec in H as [-> | ->]; reflexivity. }
  assert (Tp : re_match task_type_pattern line = false).
  { apply separator_pattern_spec in H as [-> | ->]; reflexivity. }
  unfold parse_line, parse_task. rewrite T, A, Ty, D. rewrite_tests.
  simpl. now rewrite andb_false_r.
Qed.

End TaskSteps.

(** The body of a description and the blank line that ends a task
    block. *)
Lemma read_task_description (more : list string) :
  forall parser n,
    parser.[task] = true -> parser.[arch] = true ->
    parser.[type] = true -> parser.[description] = true ->
    Forall (fun l => re_match description_pattern l = true) more ->
    exists self',
      read_loop parser n (more ++ [""]) = Returns self'
      /\ state self' = state init.
Proof.
  induction more as [|l more IH]; intros parser n T A Ty D F; simpl.
  - rewrite step_task_separator by (assumption || reflexivity).
    eexists. split; reflexivity.
  - inversion F as [|? ? Hl F']; subst.
    rewrite step_task_description by assumption.
    apply IH; assumption.
Qed.

(** C4.  A well-formed task block (a task declaration that carries a
    link, an architecture line, a type line, a first description line,
    any number of further description lines and a blank line), read
    from a state in which no block is open, is accepted line after line
    without a diagnostic and leaves the parser with all flags cleared,
    that is, in the mode [Undetermined].  In particular the stream
    [1:], [  - task: http://tracker/123], [    arch: stm32, avr],
    [    feature: |], [      adds X], blank is parsed successfully. *)
Theorem C4_well_formed_task_block :
  (forall self n decl arch_line type_line first more,
      self.[task] = false -> self.[release] = false ->
      re_match task_extended_pattern decl = true ->
      re_match arch_pattern arch_line = true ->
      re_match task_type_pattern type_line = true ->
      re_match description_initial_pattern first = true ->
      Forall (fun l => re_match description_pattern l = true) more ->
      exists self',
        read_loop self n
          ([decl; arch_line; type_line; first] ++ more ++ [""])
        = Returns self'
        /\ state self' = state init
        /\ mode_of self' = Some Undetermined)
  /\ parse_yaml
       ["1:"; "  - task: http://tracker/123"; "    arch: stm32, avr";
        "    feature: |"; "      adds X"; ""]
     = ParsedSuccessfully.
Proof.
  split; [|reflexivity].
  intros self n decl arch_line type_line first more T R Hd Ha Ht Hf Hm.
  open_parser self. cbn [app read_loop].
  rewrite step_task_declaration by (assumption || reflexivity).
  rewrite step_arch by (assumption || reflexivity).
  rewrite step_task_type by (assumption || reflexivity).
  rewrite step_task_description_initial by (assumption || reflexivity).
  match goal with
  | |- context [read_loop ?p ?k (more ++ [""])] =>
      destruct (read_task_description more p k) as (self' & E & S);
        try reflexivity; [assumption|]
  end.
  exists self'. split; [exact E|]. split; [exact S|].
  unfold mode_of. rewrite S. reflexivity.
Qed.

Lemma C4_witness :
  exists self',
    read_loop init 1
      (["  - task: http://tracker/123"; "    arch: stm32, avr";
        "    feature: |"; "      adds X"] ++ ["      and Y"; "      "]
       ++ [""])
    = Returns self'
    /\ state self' = state init
    /\ mode_of self' = Some Undetermined.
Proof.
  apply (proj1 C4_well_formed_task_block); try reflexivity.
  repeat constructor.
Defined.

(* ================================================================== *)
(** ** The steps of a release block *)
(* ================================================================== *)

Lemma separator_tests (s : string) :
  re_match separator_pattern s = true ->
  re_match major_vers_pattern s = false
  /\ re_match arch_pattern s = false
  /\ re_match task_type_pattern s = false
  /\ re_match date_pattern s = false
  /\ re_match dependencies_pattern s = false
  /\ re_match base_pattern s = false
  /\ re_match protocol_pattern s = false.
Proof.
  intros H. apply separator_pattern_spec in H as [-> | ->];
    repeat split; reflexivity.
Qed.

Section ReleaseSteps.

Variable self : YamlParser.
Variable line : string.

Lemma step_release_declaration :
  self.[task] = false -> self.[release] = false ->
  re_match release_extended_pattern line = true ->
  parse_line self line = Returns (assign self release true).
Proof.
  intros T R H. tests_of H release_declaration_tests.
  unfold parse_line, parse_initial. rewrite T, R. rewrite_tests.
  reflexivity.
Qed.

Hypothesis in_release : self.[task] = false /\ self.[release] = true.

Lemma step_date :
  re_match date_pattern line = true ->
  parse_line self line = Returns (assign self date true).
Proof.
  destruct in_release as [T R]. intros H. tests_of H date_line_tests.
  unfold parse_line, parse_release. rewrite T, R. rewrite_tests.
  reflexivity.
Qed.

Hypothesis date_seen : self.[date] = true.

Lemma step_dependencies :
  re_match dependencies_pattern line = true ->
  parse_line self line = Returns (assign self dependencies true).
Proof.
  destruct in_release as [T R]. intros H.
  tests_of H dependencies_line_tests.
  unfold parse_line, parse_release. rewrite T, R, date_seen.
  rewrite_tests. reflexivity.
Qed.

Lemma step_base :
  re_match base_pattern line = true ->
  parse_line self line = Returns (assign self base true).
Proof.
  destruct in_release as [T R]. intros H. tests_of H base_line_tests.
  unfold parse_line, parse_release. rewrite T, R, date_seen.
  rewrite_tests. reflexivity.
Qed.

Hypothesis dependencies_seen : self.[dependencies] = true.

Lemma step_protocol :
  re_match protocol_pattern line = true ->
  parse_line self line = Returns (assign self protocol true).
Proof.
  destruct in_release as [T R]. intros H. tests_of H protocol_line_tests.
  unfold parse_line, parse_release.
  rewrite T, R, date_seen, dependencies_seen. rewrite_tests.
  reflexivity.
Qed.

Hypothesis protocol_seen : self.[protocol] = true.

Lemma step_release_type :
  re_match task_type_pattern line = true ->
  parse_line self line = Returns (assign self type true).
Proof.
  destruct in_release as [T R]. intros H. tests_of H type_line_tests.
  unfold parse_line, parse_release.
  rewrite T, R, date_seen, dependencies_seen, protocol_seen.
  rewrite_tests. reflexivity.
Qed.

Lemma step_release_separator :
  re_match separator_pattern line = true ->
  parse_line self line = Returns (reset_release_state self).
Proof.
  destruct in_release as [T R]. intros H. tests_of H separator_tests.
  unfold parse_line, parse_release, parse_release_tail.
  rewrite T, R, date_seen, dependencies_seen, protocol_seen.
  rewrite_tests. simpl. rewrite andb_false_r.
  clear. open_parser self. reflexivity.
Qed.

Hypothesis type_seen : self.[type] = true.

Lemma step_release_description_initial :
  re_match description_initial_pattern line = true ->
  parse_line self line = Returns (assign self description true).
Proof.
  destruct in_release as [T R]. intros H.
  tests_of (description_initial_is_description _ H) description_line_tests.
  unfold parse_line, parse_release, parse_release_tail.
  rewrite T, R, date_seen, dependencies_seen, protocol_seen.
  rewrite_tests. rewrite type_seen. rewrite_tests.
  simpl. now rewrite andb_false_r.
Qed.

Lemma step_release_description :
  self.[description] = true ->
  re_match description_pattern line = true ->
  parse_line self line = Returns self.
Proof.
  destruct in_release as [T R]. intros D H.
  tests_of H description_line_tests.
  unfold parse_line, parse_release, parse_release_tail.
  rewrite T, R, date_seen, dependencies_seen, protocol_seen.
  rewrite_tests. rewrite type_seen, D. rewrite_tests.
  simpl. rewrite andb_false_r.
  destruct (re_match description_initial_pattern line); [|reflexivity].
  f_equal. clear - D. open_parser self. reflexivity.
Qed.

End ReleaseSteps.

Ltac flags_hold := first [assumption | reflexivity | split; reflexivity].

Lemma read_release_description (more : list string) :
  forall parser n,
    parser.[task] = false -> parser.[release] = true ->
    parser.[date] = true -> parser.[dependencies] = true ->
    parser.[protocol] = true -> parser.[type] = true ->
    parser.[description] = true ->
    Forall (fun l => re_match description_pattern l = true) more ->
    exists self',
      read_loop parser n (more ++ [""]) = Returns self'
      /\ state self' = state (reset_release_state parser).
Proof.
  induction more as [|l more IH];
    intros parser n T R Da De P Ty D F; simpl.
  - rewrite step_release_separator by (flags_hold || now split).
    eexists. split; reflexivity.
  - inversion F as [|? ? Hl F']; subst.
    rewrite step_release_description by (flags_hold || now split).
    edestruct (IH (set_current_line_number parser (S n)) (S n))
      as (self' & E & S); try eassumption.
    exists self'. split; [exact E|]. rewrite S. reflexivity.
Qed.

(** C5.  A well-formed release block read from a state in which no
    block is open (a release or prerelease declaration, a date line,
    optionally one base line, a dependencies line, a protocol line,
    optionally a type line with a first description line and further
    description lines, and a blank line) is accepted line after line
    without a diagnostic in each of the four combinations of the two
    optional parts.  The release flags are cleared at the end and the
    parser is back in the mode [Undetermined]. *)
Theorem C5_well_formed_release_block :
  forall self n decl date_line base_line deps_line protocol_line trailer,
    self.[task] = false -> self.[release] = false ->
    re_match release_extended_pattern decl = true ->
    re_match date_pattern date_line = true ->
    base_line_ok base_line ->
    re_match dependencies_pattern deps_line = true ->
    re_match protocol_pattern protocol_line = true ->
    section_ok trailer ->
    exists self',
      read_loop self n
        ([decl; date_line] ++ optional_line base_line
         ++ [deps_line; protocol_line] ++ optional_section trailer ++ [""])
      = Returns self'
      /\ state self' = state (reset_release_state self)
      /\ mode_of self' = Some Undetermined.
Proof.
  intros self n decl date_line base_line deps_line protocol_line trailer
    T R Hdecl Hdate Hbase Hdeps Hproto Htrail.
  assert (Done : forall self', state self' = state (reset_release_state self)
                   -> mode_of self' = Some Undetermined).
  { intros self' S. unfold mode_of. rewrite S. clear - T.
    open_parser self. reflexivity. }
  enough (exists self',
      read_loop self n
        ([decl; date_line] ++ optional_line base_line
         ++ [deps_line; protocol_line] ++ optional_section trailer ++ [""])
      = Returns self'
      /\ state self' = state (reset_release_state self))
    as (self' & E & S) by (exists self'; auto).
  clear Done. open_parser self.
  cbn [app read_loop].
  rewrite step_release_declaration by flags_hold.
  rewrite step_date by flags_hold.
  destruct base_line as [b|]; cbn [optional_line app read_loop];
    [cbn in Hbase; rewrite step_base by flags_hold|];
    rewrite step_dependencies by flags_hold;
    rewrite step_protocol by flags_hold;
    (destruct trailer as [[[type_line first] more]|];
     cbn [optional_section app read_loop];
     [ destruct Htrail as (Ht & Hf & Hm);
       rewrite step_release_type by flags_hold;
       rewrite step_release_description_initial by flags_hold;
       match goal with
       | |- context [read_loop ?p ?k (more ++ [""])] =>
           destruct (read_release_description more p k)
             as (self' & E & S); try reflexivity; [assumption|]
       end;
       exists self'; split; [exact E | rewrite S; reflexivity]
     | rewrite step_release_separator by flags_hold;
       eexists; split; reflexivity ]).
Qed.

Lemma C5_witness :
  exists self',
    read_loop init 1
      (["  - prerelease: 7"; "    date: 01.02.24"]
       ++ optional_line (Some "    base: 5")
       ++ ["    dependencies: []"; "    protocol: 3"]
       ++ optional_section
            (Some ("    info: |", "      first", ["      "; "      more"]))
       ++ [""])
    = Returns self'
    /\ state self' = state (reset_release_state init)
    /\ mode_of self' = Some Undetermined.
Proof.
  apply C5_well_formed_release_block; try reflexivity.
  simpl. repeat split; repeat constructor.
Defined.

(* ================================================================== *)
(** ** Properties of the engine *)
(* ================================================================== *)

(** C10.  The [task] flag and the [release] flag are never set together:
    every line-processing step that returns keeps this, so it holds in
    every state a run can reach and the dispatch of [parse_line] always
    finds one of the three modes; the two resets clear the flag of the
    block they close. *)
Theorem C10_task_release_exclusive :
  (forall self line self',
      self.[task] && self.[release] = false ->
      parse_line self line = Returns self' ->
      self'.[task] && self'.[release] = false)
  /\ (forall stdin self,
         read_loop ModemYamlParser 0 stdin = Returns self ->
         self.[task] && self.[release] = false /\ mode_of self <> None)
  /\ (forall self,
         (reset_state self).[task] = false
         /\ (reset_release_state self).[release] = false).
Proof.
  split; [exact parse_line_exclusive|]. split.
  - intros stdin self H.
    assert (X : self.[task] && self.[release] = false).
    { eapply read_loop_exclusive; [|exact H]. reflexivity. }
    split; [exact X|]. unfold mode_of.
    destruct (self.[task]), (self.[release]); discriminate.
  - intros self. open_parser self. split; reflexivity.
Qed.

Lemma C10_witness :
  (assign init task true).[task] && (assign init task true).[release]
  = false.
Proof.
  apply (proj1 C10_task_release_exclusive init "  - task: http://t/1");
    reflexivity.
Defined.

(** A run fails at the first line whose processing does not return, with
    the diagnostic of that line. *)
Lemma run_fails_at (pre : list string) self line post d :
  read_loop ModemYamlParser 0 pre = Returns self ->
  parse_line (set_current_line_number self (S (List.length pre))) line
  = Exits d ->
  parse_yaml (pre ++ line :: post) = Failed d.
Proof.
  intros Hpre Hline. unfold parse_yaml.
  rewrite read_loop_app, Hpre. simpl. now rewrite Hline.
Qed.

(** C9.  With no block open, a line that starts with [  - task: ] but
    is no well-formed task declaration (its value does not have the
    [http...] shape) gets the diagnostic that names
    [  - task: <link-to-task>], at that line, and a run that meets such
    a line in the mode [Undetermined] fails there with the number of
    the line; this is another text than
    the general diagnostic [  - {task,release}:], which a line with
    neither keyword gets.  In particular the one-line stream
    [  - task: not-a-link] fails so at line 1. *)
Theorem C9_task_without_link :
  (forall self value,
      self.[task] = false -> self.[release] = false ->
      re_match task_extended_pattern ("  - task: " ++ value) = false ->
      parse_line self ("  - task: " ++ value)
      = Exits (mkDiagnostic (line_number self) ("  - task: " ++ value)
                 "`  - task: <link-to-task>`"))
  /\ (forall pre self value post,
         read_loop ModemYamlParser 0 pre = Returns self ->
         mode_of self = Some Undetermined ->
         re_match task_extended_pattern ("  - task: " ++ value) = false ->
         parse_yaml (pre ++ ("  - task: " ++ value) :: post)
         = Failed (mkDiagnostic (S (List.length pre)) ("  - task: " ++ value)
                     "`  - task: <link-to-task>`"))
  /\ parse_yaml ["  - task: not-a-link"]
     = Failed (mkDiagnostic 1 "  - task: not-a-link"
                 "`  - task: <link-to-task>`")
  /\ parse_yaml ["  - tusk: http://t/1"]
     = Failed (mkDiagnostic 1 "  - tusk: http://t/1" "`  - {task,release}:`")
  /\ "`  - task: <link-to-task>`" <> "`  - {task,release}:`".
Proof.
  assert (Line : forall self value,
      self.[task] = false -> self.[release] = false ->
      re_match task_extended_pattern ("  - task: " ++ value) = false ->
      parse_line self ("  - task: " ++ value)
      = Exits (mkDiagnostic (line_number self) ("  - task: " ++ value)
                 "`  - task: <link-to-task>`")).
  { intros self value T R H.
    assert (P : re_match task_pattern ("  - task: " ++ value) = true)
      by (apply task_pattern_spec; now exists value).
    tests_of P task_like_tests.
    unfold parse_line, parse_initial, validate_initial, raise_error.
    rewrite T, R. rewrite_tests. reflexivity. }
  split; [exact Line|].
  split; [|split; [reflexivity | split; [reflexivity | discriminate]]].
  intros pre self value post Hpre U H.
  apply (run_fails_at _ _ _ _ _ Hpre).
  assert (TR : self.[task] = false /\ self.[release] = false).
  { unfold mode_of in U.
    destruct (self.[task]), (self.[release]); try discriminate.
    now split. }
  destruct TR as [T R].
  rewrite Line; [reflexivity | exact T | exact R | exact H].
Qed.

Lemma C9_witness :
  parse_line init ("  - task: " ++ "http")
  = Exits (mkDiagnostic 0 ("  - task: " ++ "http")
             "`  - task: <link-to-task>`").
Proof.
  apply (proj1 C9_task_without_link init "http"); reflexivity.
Defined.

(** C3.  In a release block a mandatory field that arrives ahead of its
    turn stops the run with a diagnostic at exactly that line: a
    dependencies or protocol line while the date is still missing is
    answered by the demand for the date field, a protocol line while the
    dependencies are still missing by the demand for the dependencies
    field.  In particular [1:], [  - release: 7], [    protocol: 3],
    [    date: 01.02.24] fails at line 3 with the demand for a date. *)
Theorem C3_swapped_mandatory_fields :
  (forall pre self line post,
      read_loop ModemYamlParser 0 pre = Returns self ->
      self.[release] = true ->
      (self.[date] = false
       /\ (re_match dependencies_pattern line = true
           \/ re_match protocol_pattern line = true))
      \/ (self.[date] = true /\ self.[dependencies] = false
          /\ re_match protocol_pattern line = true) ->
      parse_yaml (pre ++ line :: post)
      = Failed (mkDiagnostic (S (List.length pre)) line
                  (if self.[date] then "`    dependencies:`"
                   else "`    date: <dd.mm.yy>`")))
  /\ parse_yaml
       ["1:"; "  - release: 7"; "    protocol: 3"; "    date: 01.02.24"]
     = Failed (mkDiagnostic 3 "    protocol: 3" "`    date: <dd.mm.yy>`").
Proof.
  split; [|reflexivity].
  intros pre self line post Hpre R Hcase.
  assert (T : self.[task] = false).
  { assert (X : self.[task] && self.[release] = false)
      by (eapply read_loop_exclusive; [|exact Hpre]; reflexivity).
    rewrite R, andb_true_r in X. exact X. }
  apply (run_fails_at _ _ _ _ _ Hpre).
  unfold parse_line, parse_release, raise_error.
  destruct Hcase as [[D [H|H]] | (D & De & H)].
  - tests_of H dependencies_line_tests. open_parser self.
    rewrite_tests. reflexivity.
  - tests_of H protocol_line_tests. open_parser self.
    rewrite_tests. reflexivity.
  - tests_of H protocol_line_tests. open_parser self.
    rewrite_tests. reflexivity.
Qed.

Lemma C3_witness :
  parse_yaml (["  - prerelease: 12"; "    date: 31.12.23"]
              ++ "    protocol: 4" :: ["    dependencies:"; ""])
  = Failed (mkDiagnostic 3 "    protocol: 4" "`    dependencies:`").
Proof.
  apply (proj1 C3_swapped_mandatory_fields
           ["  - prerelease: 12"; "    date: 31.12.23"]
           (mkParser 2 (mkFlags false false false false false
                                true true false false false)));
    [reflexivity | reflexivity |].
  right. repeat split; reflexivity.
Defined.

Lemma indent4_leading_spaces (s : string) :
  re_match indent4_pattern s = true -> leading_spaces s = 4.
Proof.
  intros H. apply indent4_shape in H as (c & rest & -> & Hc). simpl.
  destruct (Ascii.eqb_spec c " ") as [->|]; [discriminate | reflexivity].
Qed.

(** C2 (as the code has it).  Inside a task block whose description has
    begun: a line that starts with six blanks leaves the state as it
    is; the empty line closes the block and clears every flag; an
    architecture line or a type line is accepted again and leaves the
    state as it is; a major version marker is recorded; every other
    line gets the diagnostic that asks for a description line. *)
Theorem C2_inside_task_description :
  forall self line,
    in_task_description self = true ->
    ((exists rest, line = "      " ++ rest) ->
     parse_line self line = Returns self)
    /\ (line = "" ->
        parse_line self line = Returns (reset_state self)
        /\ mode_of (reset_state self) = Some Undetermined)
    /\ (re_match arch_pattern line = true
        \/ re_match task_type_pattern line = true ->
        parse_line self line = Returns self)
    /\ (re_match major_vers_pattern line = true ->
        parse_line self line = Returns (assign self major_ver true))
    /\ (re_match major_vers_pattern line = false ->
        re_match arch_pattern line = false ->
        re_match task_type_pattern line = false ->
        re_match separator_pattern line = false ->
        re_match description_pattern line = false ->
        parse_line self line
        = Exits (mkDiagnostic (line_number self) line
                   "`      <description>`")).
Proof.
  intros self line S. unfold in_task_description in S.
  apply andb_true_iff in S as [S D]. apply andb_true_iff in S as [S Ty].
  apply andb_true_iff in S as [T A].
  split; [|split; [|split; [|split]]].
  - intros H. apply step_task_description; try assumption.
    now apply description_pattern_spec.
  - intros ->. split; [now apply step_task_separator|].
    clear. open_parser self. reflexivity.
  - intros [H|H].
    + rewrite step_arch by assumption. f_equal.
      clear - A. open_parser self. reflexivity.
    + rewrite step_task_type by assumption. f_equal.
      clear - Ty. open_parser self. reflexivity.
  - intros H. unfold parse_line. now rewrite H.
  - intros M Ha Ht Hs Hd.
    assert (Hi : re_match description_initial_pattern line = false).
    { destruct (re_match description_initial_pattern line) eqn:E;
        [|reflexivity].
      apply description_initial_is_description in E. congruence. }
    unfold parse_line, parse_task, raise_error.
    rewrite T, A, Ty, D. rewrite_tests. simpl.
    now rewrite !andb_false_r.
Qed.

Lemma C2_witness :
  parse_line
    (mkParser 6 (mkFlags true true true true true
                         false false false false false))
    "    date: 01.02.24"
  = Exits (mkDiagnostic 6 "    date: 01.02.24" "`      <description>`").
Proof.
  apply (C2_inside_task_description
           (mkParser 6 (mkFlags true true true true true
                                false false false false false))
           "    date: 01.02.24"); reflexivity.
Defined.

(** C2 as the spec words it fails: an architecture line and a type line
    that arrive inside the description get no diagnostic. *)
Lemma C2_counterexample :
  in_task_description
    (mkParser 6 (mkFlags true true true true true
                         false false false false false)) = true
  /\ re_match description_pattern "    arch: avr" = false
  /\ "    arch: avr" <> ""
  /\ parse_line
       (mkParser 6 (mkFlags true true true true true
                            false false false false false))
       "    arch: avr"
     = Returns (mkParser 6 (mkFlags true true true true true
                                    false false false false false))
  /\ parse_line
       (mkParser 6 (mkFlags true true true true true
                            false false false false false))
       "    bug: |"
     = Returns (mkParser 6 (mkFlags true true true true true
                                    false false false false false))
  /\ parse_yaml
       ["  - task: http://tracker/123"; "    arch: stm32"; "    feature: |";
        "      adds X"; "    arch: avr"; "    bug: |"; ""]
     = ParsedSuccessfully.
Proof. repeat split; (reflexivity || discriminate). Qed.

(** C6 (as the code has it).  In a release block whose date line was
    read, a base line is accepted whenever it arrives, also a second
    time and also after the dependencies line (the [base] flag is set
    and never looked at); and while the dependencies are missing, a
    line with the four-blank indentation or a blank line that is none
    of date, dependencies and base line gets the diagnostic that asks
    for the dependencies field. *)
Theorem C6_base_and_dependencies :
  forall self line,
    self.[task] = false -> self.[release] = true -> self.[date] = true ->
    (re_match base_pattern line = true ->
     parse_line self line = Returns (assign self base true))
    /\ (self.[dependencies] = false ->
        re_match indent4_pattern line = true
        \/ re_match separator_pattern line = true ->
        re_match date_pattern line = false ->
        re_match dependencies_pattern line = false ->
        re_match base_pattern line = false ->
        parse_line self line
        = Exits (mkDiagnostic (line_number self) line "`    dependencies:`")).
Proof.
  intros self line T R D. split.
  - intros H. now apply step_base.
  - intros De Hi Hdate Hdeps Hbase.
    assert (M : re_match major_vers_pattern line = false).
    { destruct Hi as [Hi|Hi].
      - apply indent4_shape in Hi as (c & rest & -> & _). reflexivity.
      - now apply separator_tests in Hi. }
    unfold parse_line, parse_release, raise_error.
    rewrite T, R, D, De. rewrite_tests. simpl.
    destruct Hi as [Hi|Hi]; rewrite Hi; simpl;
      now rewrite ?andb_false_r.
Qed.

Lemma C6_witness :
  parse_line
    (mkParser 5 (mkFlags false false false false false
                         true true true true false))
    "    base: 12"
  = Returns
      (assign (mkParser 5 (mkFlags false false false false false
                                   true true true true false))
         base true).
Proof.
  apply (C6_base_and_dependencies
           (mkParser 5 (mkFlags false false false false false
                                true true true true false))
           "    base: 12"); reflexivity.
Defined.

(** C6 as the spec words it fails: a second base line, and a base line
    after the dependencies line, are accepted without a diagnostic; a
    second date line ahead of the dependencies is accepted too, and a
    line with three blanks there is answered by the indentation
    diagnostic, not by the demand for the dependencies. *)
Lemma C6_counterexample :
  parse_yaml
    ["  - release: 7"; "    date: 01.02.24"; "    base: 1"; "    base: 2";
     "    dependencies:"; "    base: 3"; "    protocol: 3"; ""]
  = ParsedSuccessfully
  /\ parse_yaml
       ["  - release: 7"; "    date: 01.02.24"; "    date: 02.02.24";
        "    dependencies:"; "    protocol: 3"; ""]
     = ParsedSuccessfully
  /\ parse_yaml ["  - release: 7"; "    date: 01.02.24"; "   protocol: 3"]
     = Failed (mkDiagnostic 3 "   protocol: 3" "indent 4 spaces `    `").
Proof. repeat split; reflexivity. Qed.

Lemma leading_blank_tests (s : string) :
  0 < leading_spaces s ->
  re_match separator_pattern s = false
  /\ re_match major_vers_pattern s = false.
Proof.
  destruct s as [|c rest]; simpl; [lia|].
  destruct (Ascii.eqb_spec c " ") as [->|]; [|lia].
  intros _. split; [|reflexivity].
  unfold re_match, separator_pattern. cbn [exec Nat.eqb andb at_eol].
  destruct rest; reflexivity.
Qed.

(** C8.  Inside a task or release block, at a position where a field
    line is due (no type line was accepted yet), a line with a wrong
    width of leading blanks (it starts with blanks, but not with exactly
    four: three or five, say) gets the indentation diagnostic at exactly
    that line, and the run fails there with the number of the line.
    The test comes before every test for a field: the diagnostic is the
    one about the indentation whatever fields are still missing.  The
    same holds, more generally, for every line there that is not blank,
    is no major version marker and does not start with exactly four
    blanks, also one with no blank in front. *)
Theorem C8_indentation_checked_first :
  (forall self line,
      self.[task] || self.[release] = true ->
      self.[type] = false ->
      0 < leading_spaces line ->
      leading_spaces line <> 4 ->
      parse_line self line
      = Exits (mkDiagnostic (line_number self) line "indent 4 spaces `    `"))
  /\ (forall pre self line post,
         read_loop ModemYamlParser 0 pre = Returns self ->
         self.[task] || self.[release] = true ->
         self.[type] = false ->
         0 < leading_spaces line ->
         leading_spaces line <> 4 ->
         parse_yaml (pre ++ line :: post)
         = Failed (mkDiagnostic (S (List.length pre)) line
                     "indent 4 spaces `    `"))
  /\ (forall self line,
         self.[task] || self.[release] = true ->
         self.[type] = false ->
         leading_spaces line <> 4 ->
         re_match separator_pattern line = false ->
         re_match major_vers_pattern line = false ->
         parse_line self line
         = Exits (mkDiagnostic (line_number self) line
                    "indent 4 spaces `    `"))
  /\ (forall pre self line post,
         read_loop ModemYamlParser 0 pre = Returns self ->
         self.[task] || self.[release] = true ->
         self.[type] = false ->
         leading_spaces line <> 4 ->
         re_match separator_pattern line = false ->
         re_match major_vers_pattern line = false ->
         parse_yaml (pre ++ line :: post)
         = Failed (mkDiagnostic (S (List.length pre)) line
                     "indent 4 spaces `    `")).
Proof.
  assert (Line : forall self line,
      self.[task] || self.[release] = true ->
      self.[type] = false ->
      leading_spaces line <> 4 ->
      re_match separator_pattern line = false ->
      re_match major_vers_pattern line = false ->
      parse_line self line
      = Exits (mkDiagnostic (line_number self) line
                 "indent 4 spaces `    `")).
  { intros self line B Ty W Hs M.
    assert (Hi : re_match indent4_pattern line = false).
    { destruct (re_match indent4_pattern line) eqn:E; [|reflexivity].
      apply indent4_leading_spaces in E. contradiction. }
    unfold parse_line. rewrite M.
    destruct (self.[task]) eqn:T; simpl in B |- *.
    - unfold parse_task, raise_error. rewrite Hi, Ty, Hs. reflexivity.
    - rewrite B. simpl.
      unfold parse_release, raise_error. rewrite Hi, Ty, Hs. reflexivity. }
  assert (Run : forall pre self line post,
      read_loop ModemYamlParser 0 pre = Returns self ->
      self.[task] || self.[release] = true ->
      self.[type] = false ->
      leading_spaces line <> 4 ->
      re_match separator_pattern line = false ->
      re_match major_vers_pattern line = false ->
      parse_yaml (pre ++ line :: post)
      = Failed (mkDiagnostic (S (List.length pre)) line
                  "indent 4 spaces `    `")).
  { intros pre self line post Hpre B Ty W Hs M.
    apply (run_fails_at _ _ _ _ _ Hpre). now rewrite Line. }
  split; [|split; [|split; [exact Line | exact Run]]].
  - intros self line B Ty P W.
    destruct (leading_blank_tests line P) as [Hs M]. now apply Line.
  - intros pre self line post Hpre B Ty P W.
    destruct (leading_blank_tests line P) as [Hs M].
    now apply (Run pre self line post).
Qed.

Lemma C8_witness :
  parse_line
    (mkParser 4 (mkFlags false false false false false
                         true true false false false))
    "     dependencies:"
  = Exits (mkDiagnostic 4 "     dependencies:" "indent 4 spaces `    `").
Proof.
  apply (proj1 C8_indentation_checked_first
           (mkParser 4 (mkFlags false false false false false
                                true true false false false))
           "     dependencies:"); try reflexivity; simpl; lia.
Defined.

(** Two lines the indentation test does not apply to, at a position
    where the architecture line is due: the major version marker, which
    [parse_line] accepts before it looks at the block, and the blank
    line, which the test lets through by its own guard and which the
    test for the architecture then rejects. *)
Lemma indentation_test_exemptions :
  parse_line
    (mkParser 2 (mkFlags false true false false false
                         false false false false false))
    "1:"
  = Returns (mkParser 2 (mkFlags true true false false false
                                 false false false false false))
  /\ parse_line
       (mkParser 2 (mkFlags false true false false false
                            false false false false false))
       ""
     = Exits (mkDiagnostic 2 "" "`    arch: {stm32,avr,at32}`").
Proof. split; reflexivity. Qed.

(** A run that fails fails at one of its lines. *)
Lemma read_loop_exits (stdin : list string) :
  forall parser n d,
    read_loop parser n stdin = Exits d ->
    exists pre line post self,
      stdin = (pre ++ line :: post)%list
      /\ read_loop parser n pre = Returns self
      /\ parse_line (set_current_line_number self (S (n + List.length pre)))
           line = Exits d.
Proof.
  induction stdin as [|l rest IH]; intros parser n d H; simpl in H.
  - discriminate.
  - destruct (parse_line (set_current_line_number parser (S n)) l)
      as [parser'|d'] eqn:E.
    + apply IH in H as (pre & line & post & self & -> & Hpre & Hline).
      exists (l :: pre), line, post, self. simpl. rewrite E.
      repeat split; [exact Hpre|].
      simpl List.length. rewrite Nat.add_succ_r. exact Hline.
    + injection H as ->. exists [], l, rest, parser. simpl.
      rewrite Nat.add_0_r. repeat split. exact E.
Qed.

(** C1 (as the code has it).  The end of the stream is never an error:
    when every line was processed without a diagnostic the run reports
    success, whatever flags are set at that point, and a run that fails
    fails with the diagnostic of one of its lines. *)
Theorem C1_end_of_stream_reports_success :
  (forall stdin self,
      read_loop ModemYamlParser 0 stdin = Returns self ->
      parse_yaml stdin = ParsedSuccessfully)
  /\ (forall stdin d,
         parse_yaml stdin = Failed d ->
         exists pre line post self,
           stdin = (pre ++ line :: post)%list
           /\ read_loop ModemYamlParser 0 pre = Returns self
           /\ parse_line
                (set_current_line_number self (S (List.length pre))) line
              = Exits d).
Proof.
  split.
  - intros stdin self H. unfold parse_yaml. now rewrite H.
  - intros stdin d H. unfold parse_yaml in H.
    destruct (read_loop ModemYamlParser 0 stdin) as [self|d'] eqn:E;
      [discriminate|].
    injection H as ->. exact (read_loop_exits _ _ _ _ E).
Qed.

Lemma C1_witness :
  parse_yaml ["1:"; "  - release: 7"; "    date: 01.02.24"]
  = ParsedSuccessfully.
Proof.
  apply (proj1 C1_end_of_stream_reports_success
           ["1:"; "  - release: 7"; "    date: 01.02.24"]
           (mkParser 3 (mkFlags true false false false false
                                true true false false false))).
  reflexivity.
Defined.

(** C1 as the spec words it fails: the stream below ends inside a task
    block, just after the architecture line, and the run reports
    success. *)
Lemma C1_counterexample :
  read_loop ModemYamlParser 0
    ["  - task: http://tracker/123"; "    arch: stm32"]
  = Returns (mkParser 2 (mkFlags false true true false false
                                 false false false false false))
  /\ mode_of (mkParser 2 (mkFlags false true true false false
                                  false false false false false))
     = Some InTask
  /\ parse_yaml ["  - task: http://tracker/123"; "    arch: stm32"]
     = ParsedSuccessfully.
Proof. repeat split; reflexivity. Qed.

(** The star of the bracket pair matches any number of pairs, and
    nothing else. *)
Lemma star_brackets_intro (n : nat) pos s :
  exists pos', matches (Star (Lit " []")) pos (brackets n ++ s) pos' s.
Proof.
  revert pos. induction n as [|n IH]; intros pos.
  - exists pos. constructor.
  - destruct (IH (pos + String.length " []")) as [pos' M].
    exists pos'. cbn [brackets]. rewrite app_assoc_string.
    eapply M_Star_more; [constructor | exact M].
Qed.

Lemma star_brackets_inv pos s pos' s' :
  matches (Star (Lit " []")) pos s pos' s' ->
  exists n, s = brackets n ++ s'.
Proof.
  intros M. remember (Star (Lit " []")) as sr eqn:E.
  induction M as
    [ | | | | | | | |
    | r pos s | r pos s pos1 s1 pos2 s2 M1 _ M2 IH2 ];
    try discriminate; injection E as ->.
  - now exists 0.
  - destruct (IH2 eq_refl) as [n ->]. inversion M1; subst.
    exists (S n). cbn [brackets]. now rewrite app_assoc_string.
Qed.

(** The lines [dependencies_pattern] accepts: the keyword with any
    number of bracket pairs behind it (and, as for every [$], possibly
    one line feed at the very end). *)
Lemma dependencies_pattern_spec (s : string) :
  re_match dependencies_pattern s = true <->
  exists n, s = "    dependencies:" ++ brackets n
            \/ s = "    dependencies:" ++ brackets n ++ String newline "".
Proof.
  rewrite re_match_spec. unfold dependencies_pattern. split.
  - intros (pos' & s' & M).
    inversion M as [ | | | | | | ? ? ? ? ? ? ? ? Mb M1 | | | | ]; subst.
    inversion Mb; subst.
    inversion M1 as [ | | | | | | ? ? ? ? ? ? ? ? Ml M2 | | | | ]; subst.
    inversion Ml; subst.
    inversion M2 as [ | | | | | | ? ? ? ? ? ? ? ? Ms Me | | | | ]; subst.
    apply star_brackets_inv in Ms as [n ->].
    inversion Me as [ | ? ? At | | | | | | | | | ]; subst.
    exists n. destruct s' as [|c [|d s']]; simpl in At; try discriminate.
    + left. now rewrite app_empty_r.
    + right. unfold is_newline in At.
      destruct (Ascii.eqb_spec c newline) as [->|]; [|discriminate].
      reflexivity.
  - intros [n [-> | ->]].
    + destruct (star_brackets_intro n (0 + String.length "    dependencies:") "")
        as [pos' Ms].
      exists pos', "".
      rewrite app_empty_r in Ms.
      eapply M_Cat; [apply M_Bol|]. eapply M_Cat; [apply M_Lit|].
      eapply M_Cat; [exact Ms|]. now apply M_Eol.
    + destruct (star_brackets_intro n (0 + String.length "    dependencies:")
                  (String newline "")) as [pos' Ms].
      exists pos', (String newline "").
      eapply M_Cat; [apply M_Bol|]. eapply M_Cat; [apply M_Lit|].
      eapply M_Cat; [exact Ms|]. now apply M_Eol.
Qed.

(** C7.  The dependencies pattern accepts the two documented forms and,
    its bracket group being under a star, also every form with the
    bracket pair repeated: for each [n] the line with [n] pairs is a
    dependencies field, in particular the one with two; a release block
    with such a line is parsed successfully. *)
Theorem C7_dependencies_brackets_repeat :
  re_match dependencies_pattern "    dependencies:" = true
  /\ re_match dependencies_pattern "    dependencies: []" = true
  /\ re_match dependencies_pattern "    dependencies: [] []" = true
  /\ (forall n,
         re_match dependencies_pattern ("    dependencies:" ++ brackets n)
         = true)
  /\ parse_yaml
       ["  - release: 7"; "    date: 01.02.24"; "    dependencies: [] []";
        "    protocol: 3"; ""]
     = ParsedSuccessfully.
Proof.
  repeat split; try reflexivity.
  intros n. apply dependencies_pattern_spec. exists n. now left.
Qed.

(* ================================================================== *)
(** ** With no block open *)
(* ================================================================== *)

(** [validate_initial] never comes back: each of its paths ends in
    [raise_error]. *)
Lemma validate_initial_exits self line :
  exists d, validate_initial self line = Exits d.
Proof.
  unfold validate_initial, raise_error.
  destruct (re_match indent2_pattern line); simpl; [|eexists; reflexivity].
  destruct (re_match task_pattern line); simpl; [eexists; reflexivity|].
  destruct (re_match release_pattern line); simpl; eexists; reflexivity.
Qed.

Lemma release_pattern_spec (s : string) :
  re_match release_pattern s = true <->
  exists rest, s = "  - release: " ++ rest \/ s = "  - prerelease: " ++ rest.
Proof.
  split.
  - intros H. apply anchored_lit_inv in H as (rest & -> & H).
    unfold release_kind in H. cbn [exec] in H.
    apply orb_true_iff in H as [H|H];
      match type of H with
      | context [strip_prefix ?w rest] =>
          destruct (strip_prefix w rest) as [r1|] eqn:E1; [|discriminate];
          apply strip_prefix_inv in E1; subst rest;
          destruct (strip_prefix ": " r1) as [r2|] eqn:E2; [|discriminate];
          apply strip_prefix_inv in E2; subst r1; exists r2
      end; cbn; tauto.
  - intros [rest [-> | ->]]; reflexivity.
Qed.

Lemma release_like_tests (s : string) :
  re_match release_pattern s = true ->
  re_match major_vers_pattern s = false
  /\ re_match task_extended_pattern s = false
  /\ re_match task_pattern s = false
  /\ re_match indent2_pattern s = true.
Proof.
  intros H. apply release_pattern_spec in H as [rest [-> | ->]];
    repeat split; reflexivity.
Qed.

Lemma task_extended_is_task_like (s : string) :
  re_match task_extended_pattern s = true -> re_match task_pattern s = true.
Proof.
  intros H. apply anchored_lit_inv in H as (rest & -> & _). reflexivity.
Qed.

Lemma release_extended_is_release_like (s : string) :
  re_match release_extended_pattern s = true ->
  re_match release_pattern s = true.
Proof.
  intros H. apply release_extended_shape in H as [rest [-> | ->]];
    reflexivity.
Qed.

(** X1.  With no block open a line is accepted exactly when it is a
    major version marker, a task declaration with a link or a release
    declaration with a number.  Each of the three has its own effect
    and no other: the marker sets [major_ver], the task declaration
    sets [task], the release declaration sets [release]; every other
    line ends in a diagnostic. *)
Theorem X1_accepted_with_no_block_open :
  forall self line,
    self.[task] = false -> self.[release] = false ->
    ((exists self', parse_line self line = Returns self') <->
     re_match major_vers_pattern line = true
     \/ re_match task_extended_pattern line = true
     \/ re_match release_extended_pattern line = true)
    /\ (re_match major_vers_pattern line = true ->
        parse_line self line = Returns (assign self major_ver true))
    /\ (re_match task_extended_pattern line = true ->
        parse_line self line = Returns (assign self task true))
    /\ (re_match release_extended_pattern line = true ->
        parse_line self line = Returns (assign self release true))
    /\ (forall self',
           parse_line self line = Returns self' ->
           (re_match major_vers_pattern line = true
            /\ self' = assign self major_ver true)
           \/ (re_match task_extended_pattern line = true
               /\ self' = assign self task true)
           \/ (re_match release_extended_pattern line = true
               /\ self' = assign self release true))
    /\ (re_match major_vers_pattern line = false ->
        re_match task_extended_pattern line = false ->
        re_match release_extended_pattern line = false ->
        exists d, parse_line self line = Exits d).
Proof.
  intros self line T R.
  assert (Back : forall self',
             parse_line self line = Returns self' ->
             (re_match major_vers_pattern line = true
              /\ self' = assign self major_ver true)
             \/ (re_match task_extended_pattern line = true
                 /\ self' = assign self task true)
             \/ (re_match release_extended_pattern line = true
                 /\ self' = assign self release true)).
  { intros self' H. unfold parse_line, parse_initial in H.
    rewrite T, R in H. simpl in H.
    destruct (re_match major_vers_pattern line);
      [returned H; now left|].
    destruct (re_match task_extended_pattern line);
      [returned H; right; now left|].
    destruct (re_match release_extended_pattern line);
      [returned H; right; now right|].
    destruct (validate_initial_exits self line) as [d E]. congruence. }
  assert (Marker_ : re_match major_vers_pattern line = true ->
            parse_line self line = Returns (assign self major_ver true)).
  { intros H. unfold parse_line. now rewrite H. }
  assert (Task_ : re_match task_extended_pattern line = true ->
            parse_line self line = Returns (assign self task true)).
  { intros H. now apply step_task_declaration. }
  assert (Release_ : re_match release_extended_pattern line = true ->
            parse_line self line = Returns (assign self release true)).
  { intros H. now apply step_release_declaration. }
  split; [split|split; [exact Marker_|split; [exact Task_|
          split; [exact Release_|split; [exact Back|]]]]].
  - intros [self' H]. apply Back in H. tauto.
  - intros [H|[H|H]]; eexists; [apply Marker_ | apply Task_ | apply Release_];
      exact H.
  - intros M Tk Rl. unfold parse_line, parse_initial.
    rewrite T, R, M, Tk, Rl. simpl. apply validate_initial_exits.
Qed.

Lemma X1_witness :
  exists self', parse_line init "  - prerelease: 40" = Returns self'.
Proof.
  apply (proj1 (X1_accepted_with_no_block_open init "  - prerelease: 40"
                  eq_refl eq_refl)).
  right. right. reflexivity.
Defined.

(** X2.  With no block open, a line that starts like a release or
    prerelease declaration but whose value is not a number gets the
    diagnostic [  - release: <minor-version-number>] (the same text for
    both keywords), and a run that meets it there fails at its line. *)
Theorem X2_release_without_number :
  forall pre self line post,
    read_loop ModemYamlParser 0 pre = Returns self ->
    mode_of self = Some Undetermined ->
    re_match release_pattern line = true ->
    re_match release_extended_pattern line = false ->
    parse_line self line
    = Exits (mkDiagnostic (line_number self) line
               "`  - release: <minor-version-number>`")
    /\ parse_yaml (pre ++ line :: post)
       = Failed (mkDiagnostic (S (List.length pre)) line
                   "`  - release: <minor-version-number>`").
Proof.
  intros pre self line post Hpre U H N.
  assert (TR : self.[task] = false /\ self.[release] = false).
  { unfold mode_of in U.
    destruct (self.[task]), (self.[release]); try discriminate. now split. }
  destruct TR as [T R].
  assert (Line : forall p, p.[task] = false -> p.[release] = false ->
             parse_line p line
             = Exits (mkDiagnostic (line_number p) line
                        "`  - release: <minor-version-number>`")).
  { intros p Tp Rp. tests_of H release_like_tests.
    unfold parse_line, parse_initial, validate_initial, raise_error.
    rewrite Tp, Rp. rewrite_tests. reflexivity. }
  split; [now apply Line|].
  apply (run_fails_at _ _ _ _ _ Hpre). now rewrite Line.
Qed.

Lemma X2_witness :
  parse_yaml (["1:"] ++ "  - prerelease: 1.2" :: ["    date: 01.02.24"])
  = Failed (mkDiagnostic 2 "  - prerelease: 1.2"
              "`  - release: <minor-version-number>`").
Proof.
  apply (X2_release_without_number ["1:"]
           (mkParser 1 (mkFlags true false false false false
                                false false false false false)));
    reflexivity.
Defined.

(** X3.  With no block open, a line that is no major version marker and
    does not start with exactly two blanks and a visible character gets
    the diagnostic about the two blanks.  The empty line is such a line:
    outside a block a blank line is an error, so a run that meets one
    where no block is open fails there. *)
Theorem X3_blank_line_outside_block :
  (forall self line,
      self.[task] = false -> self.[release] = false ->
      re_match major_vers_pattern line = false ->
      re_match indent2_pattern line = false ->
      parse_line self line
      = Exits (mkDiagnostic (line_number self) line
                 "2 spaces `  ` before {task,release}"))
  /\ (forall pre self post,
         read_loop ModemYamlParser 0 pre = Returns self ->
         mode_of self = Some Undetermined ->
         parse_yaml (pre ++ "" :: post)
         = Failed (mkDiagnostic (S (List.length pre)) ""
                     "2 spaces `  ` before {task,release}")).
Proof.
  assert (Line : forall self line,
      self.[task] = false -> self.[release] = false ->
      re_match major_vers_pattern line = false ->
      re_match indent2_pattern line = false ->
      parse_line self line
      = Exits (mkDiagnostic (line_number self) line
                 "2 spaces `  ` before {task,release}")).
  { intros self line T R M I.
    assert (Te : re_match task_extended_pattern line = false).
    { destruct (re_match task_extended_pattern line) eqn:E; [|reflexivity].
      apply task_extended_is_task_like in E.
      apply task_like_tests in E as (_ & _ & E). congruence. }
    assert (Re : re_match release_extended_pattern line = false).
    { destruct (re_match release_extended_pattern line) eqn:E;
        [|reflexivity].
      apply release_extended_is_release_like in E.
      apply release_like_tests in E as (_ & _ & _ & E). congruence. }
    unfold parse_line, parse_initial, validate_initial, raise_error.
    rewrite T, R. rewrite_tests. reflexivity. }
  split; [exact Line|].
  intros pre self post Hpre U.
  assert (TR : self.[task] = false /\ self.[release] = false).
  { unfold mode_of in U.
    destruct (self.[task]), (self.[release]); try discriminate. now split. }
  destruct TR as [T R].
  apply (run_fails_at _ _ _ _ _ Hpre). now rewrite Line.
Qed.

Lemma X3_witness :
  parse_yaml
    (["  - release: 7"; "    date: 01.02.24"; "    dependencies:";
      "    protocol: 3"; ""] ++ "" :: ["  - task: http://tracker/1"])
  = Failed (mkDiagnostic 6 "" "2 spaces `  ` before {task,release}").
Proof.
  apply (proj2 X3_blank_line_outside_block
           ["  - release: 7"; "    date: 01.02.24"; "    dependencies:";
            "    protocol: 3"; ""]
           (mkParser 5 (mkFlags false false false false false
                                false false false false false)));
    reflexivity.
Defined.

(** X4.  With no block open, a line with the two-blank indentation that
    starts neither like a task nor like a release declaration gets the
    general diagnostic [  - {task,release}:]. *)
Theorem X4_neither_task_nor_release :
  forall self line,
    self.[task] = false -> self.[release] = false ->
    re_match indent2_pattern line = true ->
    re_match task_pattern line = false ->
    re_match release_pattern line = false ->
    parse_line self line
    = Exits (mkDiagnostic (line_number self) line "`  - {task,release}:`").
Proof.
  intros self line T R I Tk Rl.
  assert (M : re_match major_vers_pattern line = false).
  { apply anchored_lit_inv in I as (rest & -> & _). reflexivity. }
  assert (Te : re_match task_extended_pattern line = false).
  { destruct (re_match task_extended_pattern line) eqn:E; [|reflexivity].
    apply task_extended_is_task_like in E. congruence. }
  assert (Re : re_match release_extended_pattern line = false).
  { destruct (re_match release_extended_pattern line) eqn:E; [|reflexivity].
    apply release_extended_is_release_like in E. congruence. }
  unfold parse_line, parse_initial, validate_initial, raise_error.
  rewrite T, R. rewrite_tests. reflexivity.
Qed.

Lemma X4_witness :
  parse_line init "  arch: avr"
  = Exits (mkDiagnostic 0 "  arch: avr" "`  - {task,release}:`").
Proof.
  apply (X4_neither_task_nor_release init "  arch: avr"); reflexivity.
Defined.

(* ================================================================== *)
(** ** Which lines a block accepts *)
(* ================================================================== *)

(** Replace the flag variables of an opened parser by their values. *)
Ltac flag_cases :=
  repeat match goal with
  | b : bool |- _ => destruct b
  end.

(** X5.  Inside a task block a line is accepted exactly when it is a
    major version marker, or an architecture line, or a type line once
    the architecture is known, or a first description line once the
    type is known, or a further description line or the blank line once
    the description has begun.  The indentation test never rejects a
    line that one of these tests would accept. *)
Theorem X5_accepted_in_task_block :
  forall self line,
    self.[task] = true ->
    ((exists self', parse_line self line = Returns self') <->
     re_match major_vers_pattern line = true
     \/ re_match arch_pattern line = true
     \/ (self.[arch] = true /\ re_match task_type_pattern line = true)
     \/ (self.[arch] = true /\ self.[type] = true
         /\ re_match description_initial_pattern line = true)
     \/ (self.[arch] = true /\ self.[type] = true
         /\ self.[description] = true
         /\ (re_match separator_pattern line = true
             \/ re_match description_pattern line = true))).
Proof.
  intros self line T. split.
  - intros [self' H]. unfold parse_line, parse_task, raise_error in H.
    destruct self as [n [mv tk ar ty de re da dp bs pr]].
    simpl in T. subst tk.
    destruct ar, ty, de; simpl in H |- *;
      rewrite ?andb_true_r, ?andb_false_r in H; simpl in H;
      branch_on H; try discriminate; auto 12.
  - intros [H|[H|[[A H]|[(A & Ty & H)|(A & Ty & D & [H|H])]]]].
    + unfold parse_line. rewrite H. eexists; reflexivity.
    + rewrite step_arch by assumption. eexists; reflexivity.
    + rewrite step_task_type by assumption. eexists; reflexivity.
    + rewrite step_task_description_initial by assumption.
      eexists; reflexivity.
    + rewrite step_task_separator by assumption. eexists; reflexivity.
    + rewrite step_task_description by assumption. eexists; reflexivity.
Qed.

Lemma X5_witness :
  exists self',
    parse_line
      (mkParser 3 (mkFlags false true true false false
                           false false false false false))
      "    internal: |"
    = Returns self'.
Proof.
  apply (proj2 (X5_accepted_in_task_block
                  (mkParser 3 (mkFlags false true true false false
                                       false false false false false))
                  "    internal: |" eq_refl)).
  right. right. left. split; reflexivity.
Defined.

Lemma indent4_line_tests (s : string) :
  re_match indent4_pattern s = true ->
  re_match major_vers_pattern s = false
  /\ re_match separator_pattern s = false.
Proof.
  intros H. apply indent4_shape in H as (c & rest & -> & _).
  split; reflexivity.
Qed.

(** X6.  Inside a release block a line is accepted exactly when it is a
    major version marker; or a date line; or, once the date is known, a
    dependencies or base line; or, once the dependencies are known, a
    protocol line; or, once the protocol is known, a type line, the
    blank line, any line with the four-blank indentation as long as no
    type line was read, and after a type line a first description line
    or, once the description has begun, a further description line. *)
Theorem X6_accepted_in_release_block :
  forall self line,
    self.[task] = false -> self.[release] = true ->
    ((exists self', parse_line self line = Returns self') <->
     re_match major_vers_pattern line = true
     \/ re_match date_pattern line = true
     \/ (self.[date] = true
         /\ (re_match dependencies_pattern line = true
             \/ re_match base_pattern line = true))
     \/ (self.[date] = true /\ self.[dependencies] = true
         /\ re_match protocol_pattern line = true)
     \/ (self.[date] = true /\ self.[dependencies] = true
         /\ self.[protocol] = true
         /\ (re_match task_type_pattern line = true
             \/ re_match separator_pattern line = true
             \/ (self.[type] = false
                 /\ re_match indent4_pattern line = true)
             \/ (self.[type] = true
                 /\ (re_match description_initial_pattern line = true
                     \/ (self.[description] = true
                         /\ re_match description_pattern line = true)))))).
Proof.
  intros self line T R. split.
  - intros [self' H].
    unfold parse_line, parse_release, parse_release_tail, raise_error in H.
    destruct self as [n [mv tk ar ty de re da dp bs pr]].
    simpl in T, R. subst tk re.
    destruct (re_match indent4_pattern line) eqn:I,
             (re_match separator_pattern line) eqn:S;
      destruct da, dp, pr, ty, de; simpl in H |- *;
      rewrite ?andb_true_r, ?andb_false_r in H; simpl in H;
      branch_on H; try discriminate; auto 15.
  - intros [H|[H|[[D [H|H]]|[(D & De & H)|(D & De & P & H)]]]].
    + unfold parse_line. rewrite H. eexists; reflexivity.
    + rewrite step_date by (assumption || now split).
      eexists; reflexivity.
    + rewrite step_dependencies by (assumption || now split).
      eexists; reflexivity.
    + rewrite step_base by (assumption || now split).
      eexists; reflexivity.
    + rewrite step_protocol by (assumption || now split).
      eexists; reflexivity.
    + destruct H as [H|[H|[[Ty H]|[Ty [H|[Ds H]]]]]].
      * rewrite step_release_type by (assumption || now split).
        eexists; reflexivity.
      * rewrite step_release_separator by (assumption || now split).
        eexists; reflexivity.
      * tests_of H indent4_line_tests.
        unfold parse_line, parse_release, parse_release_tail.
        destruct self as [n [mv tk ar ty de re da dp bs pr]].
        simpl in T, R, D, De, P, Ty. subst. rewrite_tests. simpl.
        repeat match goal with
        | |- context [if re_match ?p line then _ else _] =>
            destruct (re_match p line)
        end; eexists; reflexivity.
      * rewrite step_release_description_initial
          by (assumption || now split).
        eexists; reflexivity.
      * rewrite step_release_description by (assumption || now split).
        eexists; reflexivity.
Qed.

Lemma X6_witness :
  exists self',
    parse_line
      (mkParser 5 (mkFlags false false false false false
                           true true true false true))
      "    anything at all"
    = Returns self'.
Proof.
  apply (proj2 (X6_accepted_in_release_block
                  (mkParser 5 (mkFlags false false false false false
                                       true true true false true))
                  "    anything at all" eq_refl eq_refl)).
  do 4 right. repeat split. right. right. left. split; reflexivity.
Defined.

(** X7.  In a release block, after the protocol line and before any
    type line, every line with the four-blank indentation is accepted
    without a diagnostic and the block stays open; when the line is
    none of the field lines and no type line, nothing changes at all.
    So unknown fields between the protocol line and the blank line pass
    unnoticed. *)
Theorem X7_unknown_field_after_protocol :
  forall self line,
    self.[task] = false -> self.[release] = true ->
    self.[date] = true -> self.[dependencies] = true ->
    self.[protocol] = true -> self.[type] = false ->
    re_match indent4_pattern line = true ->
    (exists self',
        parse_line self line = Returns self'
        /\ mode_of self' = Some InRelease)
    /\ (re_match date_pattern line = false ->
        re_match dependencies_pattern line = false ->
        re_match base_pattern line = false ->
        re_match protocol_pattern line = false ->
        re_match task_type_pattern line = false ->
        parse_line self line = Returns self).
Proof.
  intros self line T R D De P Ty H. tests_of H indent4_line_tests.
  unfold parse_line, parse_release, parse_release_tail, mode_of.
  destruct self as [n [mv tk ar ty de re da dp bs pr]].
  simpl in T, R, D, De, P, Ty. subst. rewrite_tests. simpl. split.
  - repeat match goal with
    | |- context [if re_match ?p line then _ else _] =>
        destruct (re_match p line)
    end; eexists; split; reflexivity.
  - intros -> -> -> -> ->. reflexivity.
Qed.

Lemma X7_witness :
  parse_line
    (mkParser 5 (mkFlags true false false false false
                         true true true false true))
    "    reviewer: nobody"
  = Returns (mkParser 5 (mkFlags true false false false false
                                 true true true false true)).
Proof.
  apply (proj2 (X7_unknown_field_after_protocol
                  (mkParser 5 (mkFlags true false false false false
                                       true true true false true))
                  "    reviewer: nobody"
                  eq_refl eq_refl eq_refl eq_refl eq_refl eq_refl eq_refl));
    reflexivity.
Defined.

(** X8.  A blank line right after a type line, with no description
    line in between: in a task block it gets the diagnostic that asks
    for a description, in a release block it closes the block. *)
Theorem X8_type_line_without_description :
  forall self line,
    re_match separator_pattern line = true ->
    self.[type] = true -> self.[description] = false ->
    (self.[task] = true -> self.[arch] = true ->
     parse_line self line
     = Exits (mkDiagnostic (line_number self) line "`      <description>`"))
    /\ (self.[task] = false -> self.[release] = true ->
        self.[date] = true -> self.[dependencies] = true ->
        self.[protocol] = true ->
        parse_line self line = Returns (reset_release_state self)
        /\ mode_of (reset_release_state self) = Some Undetermined).
Proof.
  intros self line H Ty Ds. split.
  - intros T A. tests_of H separator_tests.
    assert (Hi : re_match description_initial_pattern line = false).
    { apply separator_pattern_spec in H as [-> | ->]; reflexivity. }
    unfold parse_line, parse_task, raise_error.
    rewrite T, A, Ty, Ds. rewrite_tests. simpl.
    now rewrite !andb_false_r.
  - intros T R D De P. split.
    + apply step_release_separator; (assumption || now split).
    + clear - T. open_parser self. reflexivity.
Qed.

Lemma X8_witness :
  parse_line
    (mkParser 4 (mkFlags false true true true false
                         false false false false false))
    ""
  = Exits (mkDiagnostic 4 "" "`      <description>`").
Proof.
  apply (proj1 (X8_type_line_without_description
                  (mkParser 4 (mkFlags false true true true false
                                       false false false false false))
                  "" eq_refl eq_refl eq_refl)); reflexivity.
Defined.

(** X9.  A block is closed by a blank line only, and only when its
    mandatory part was read: whenever a line takes the parser from an
    open block back to the mode with no block open, the line is blank
    and either the block is a task block whose architecture, type and
    description were read, or a release block whose date, dependencies
    and protocol were read. *)
Theorem X9_block_closed_only_when_complete :
  forall self line self',
    self.[task] || self.[release] = true ->
    parse_line self line = Returns self' ->
    mode_of self' = Some Undetermined ->
    re_match separator_pattern line = true
    /\ ((self.[task] = true /\ self.[arch] = true /\ self.[type] = true
         /\ self.[description] = true)
        \/ (self.[task] = false /\ self.[release] = true
            /\ self.[date] = true /\ self.[dependencies] = true
            /\ self.[protocol] = true)).
Proof.
  intros self line self' B H U.
  unfold parse_line, parse_task, parse_release, parse_release_tail,
    raise_error in H.
  unfold mode_of in U.
  destruct self as [n [mv tk ar ty de re da dp bs pr]].
  simpl in B |- *.
  destruct (re_match separator_pattern line) eqn:S;
    destruct tk; simpl in H.
  - destruct ar, ty, de; simpl in H;
      rewrite ?andb_true_r, ?andb_false_r in H; simpl in H;
      branch_on H; try discriminate; returned H; simpl in U;
      try discriminate; try (destruct re; discriminate); auto 10.
  - simpl in B. subst re.
    destruct da, dp, pr; simpl in H;
      rewrite ?andb_true_r, ?andb_false_r in H; simpl in H;
      branch_on H; try discriminate; returned H; simpl in U;
      try discriminate; auto 10.
  - destruct ar, ty, de; simpl in H;
      rewrite ?andb_true_r, ?andb_false_r in H; simpl in H;
      branch_on H; try discriminate; returned H; simpl in U;
      try discriminate; destruct re; discriminate.
  - simpl in B. subst re.
    destruct da, dp, pr, ty; simpl in H;
      rewrite ?andb_true_r, ?andb_false_r in H; simpl in H;
      branch_on H; try discriminate; returned H; simpl in U;
      discriminate.
Qed.

Lemma X9_witness :
  re_match separator_pattern "" = true
  /\ (((mkParser 5 (mkFlags false true true true true
                          false false false false false)).[task] = true
       /\ (mkParser 5 (mkFlags false true true true true
                          false false false false false)).[arch] = true
       /\ (mkParser 5 (mkFlags false true true true true
                          false false false false false)).[type] = true
       /\ (mkParser 5 (mkFlags false true true true true
                          false false false false false)).[description] = true)
      \/ ((mkParser 5 (mkFlags false true true true true
                          false false false false false)).[task] = false
          /\ (mkParser 5 (mkFlags false true true true true
                          false false false false false)).[release] = true
          /\ (mkParser 5 (mkFlags false true true true true
                          false false false false false)).[date] = true
          /\ (mkParser 5 (mkFlags false true true true true
                          false false false false false)).[dependencies] = true
          /\ (mkParser 5 (mkFlags false true true true true
                          false false false false false)).[protocol] = true)).
Proof.
  apply (X9_block_closed_only_when_complete
           (mkParser 5 (mkFlags false true true true true
                          false false false false false))
           ""
           (reset_state (mkParser 5 (mkFlags false true true true true
                          false false false false false))));
    reflexivity.
Defined.

(* ================================================================== *)
(** ** The flags along a run *)
(* ================================================================== *)

Lemma parse_line_consistent self line self' :
  consistent (state self) = true ->
  parse_line self line = Returns self' ->
  consistent (state self') = true.
Proof.
  intros C H.
  unfold parse_line, parse_initial, parse_task, parse_release,
    parse_release_tail in H.
  destruct self as [n [mv tk ar ty de re da dp bs pr]].
  destruct tk, re, ar, ty, de, da, dp, bs, pr;
    try discriminate C; clear C; simpl in H;
    rewrite ?andb_true_r, ?andb_false_r in H; simpl in H;
    (destruct (re_match major_vers_pattern line);
     [returned H; reflexivity|]);
    try (destruct (re_match task_extended_pattern line);
         [returned H; reflexivity|];
         destruct (re_match release_extended_pattern line);
         [returned H; reflexivity|];
         match type of H with
         | validate_initial ?p line = _ =>
             destruct (validate_initial_exits p line) as [d E]; congruence
         end);
    unfold raise_error in H;
    branch_on H; try discriminate; returned H; reflexivity.
Qed.

Lemma read_loop_consistent stdin :
  forall parser n self,
    consistent (state parser) = true ->
    read_loop parser n stdin = Returns self ->
    consistent (state self) = true.
Proof.
  induction stdin as [|line rest IH]; intros parser n self C H; simpl in H.
  - now returned H.
  - destruct (parse_line (set_current_line_number parser (S n)) line)
      as [parser'|d] eqn:E; [|discriminate].
    eapply IH; [|exact H].
    eapply parse_line_consistent; [|exact E]. exact C.
Qed.

(** X10.  The flags always describe a position in one of the two block
    grammars.  Every line that is accepted keeps this, so it holds in
    every state a run reaches: with no block open no flag but
    [major_ver] is set (each block starts from scratch, although the
    reset of a release block leaves [arch] alone); in a task block no
    release field is set, [type] is set only with [arch] and
    [description] only with [type]; in a release block [arch] is not
    set and [dependencies], [base], [protocol], [type], [description]
    are set only with the flag before them. *)
Theorem X10_flags_stay_consistent :
  (forall self line self',
      consistent (state self) = true ->
      parse_line self line = Returns self' ->
      consistent (state self') = true)
  /\ (forall stdin self,
         read_loop ModemYamlParser 0 stdin = Returns self ->
         consistent (state self) = true).
Proof.
  split.
  - exact parse_line_consistent.
  - intros stdin self H.
    eapply read_loop_consistent; [|exact H]. reflexivity.
Qed.

Lemma X10_witness :
  consistent
    (state (mkParser 3 (mkFlags false false false false false
                                true true true false false)))
  = true.
Proof.
  apply (proj1 X10_flags_stay_consistent
           (mkParser 3 (mkFlags false false false false false
                                true true false false false))
           "    dependencies: []"); reflexivity.
Defined.

(** The flags [major_ver] and [base] are written and never read. *)
Lemma parse_line_same_decision p q line :
  read_flags (state p) = read_flags (state q) ->
  same_decision (parse_line p line) (parse_line q line).
Proof.
  intros E.
  destruct p as [n [mv tk ar ty de re da dp bs pr]].
  destruct q as [m [mv' tk' ar' ty' de' re' da' dp' bs' pr']].
  unfold read_flags in E. simpl in E.
  injection E as -> -> -> -> -> -> -> ->.
  unfold parse_line, parse_initial, validate_initial, parse_task,
    parse_release, parse_release_tail, raise_error, same_decision.
  destruct (re_match separator_pattern line); simpl;
    repeat (match goal with
            | |- context [if ?b then _ else _] => destruct b
            end; simpl; auto).
Qed.

Lemma read_flags_line_number p n :
  read_flags (state (set_current_line_number p n)) = read_flags (state p).
Proof. reflexivity. Qed.

Lemma read_loop_same_decision stdin :
  forall p q n m,
    read_flags (state p) = read_flags (state q) ->
    same_decision (read_loop p n stdin) (read_loop q m stdin).
Proof.
  induction stdin as [|line rest IH]; intros p q n m E; simpl.
  - exact E.
  - pose proof (parse_line_same_decision
                  (set_current_line_number p (S n))
                  (set_current_line_number q (S m)) line E) as D.
    destruct (parse_line (set_current_line_number p (S n)) line),
             (parse_line (set_current_line_number q (S m)) line);
      simpl in D; try contradiction.
    + now apply IH.
    + exact D.
Qed.

(** X11.  The flags [major_ver] and [base] decide nothing: two parsers
    whose flags agree apart from these two treat every line, and every
    stream, alike: both accept, and again agree apart from the two
    flags, or both stop at the same line with the same expectation. *)
Theorem X11_major_ver_and_base_never_read :
  (forall p q line,
      read_flags (state p) = read_flags (state q) ->
      same_decision (parse_line p line) (parse_line q line))
  /\ (forall p q n m stdin,
         read_flags (state p) = read_flags (state q) ->
         same_decision (read_loop p n stdin) (read_loop q m stdin)).
Proof.
  split.
  - exact parse_line_same_decision.
  - intros p q n m stdin E. now apply read_loop_same_decision.
Qed.

Lemma X11_witness :
  same_decision
    (parse_line
       (mkParser 4 (mkFlags true false false false false
                            true true false true false))
       "    protocol: 3")
    (parse_line
       (mkParser 9 (mkFlags false false false false false
                            true true false false false))
       "    protocol: 3").
Proof.
  apply (proj1 X11_major_ver_and_base_never_read). reflexivity.
Defined.

Lemma read_loop_without_markers stdin :
  forall p q n m,
    read_flags (state p) = read_flags (state q) ->
    same_decision (read_loop p n stdin)
      (read_loop q m (filter (fun l => negb (is_marker l)) stdin)).
Proof.
  induction stdin as [|line rest IH]; intros p q n m E; simpl.
  - exact E.
  - unfold is_marker at 1.
    destruct (re_match major_vers_pattern line) eqn:M; simpl.
    + unfold parse_line at 1. rewrite M. apply IH.
      rewrite <- E. clear.
      destruct p as [k [mv tk ar ty de re da dp bs pr]]. reflexivity.
    + pose proof (parse_line_same_decision
                    (set_current_line_number p (S n))
                    (set_current_line_number q (S m)) line E) as D.
      destruct (parse_line (set_current_line_number p (S n)) line),
               (parse_line (set_current_line_number q (S m)) line);
        simpl in D; try contradiction.
      * now apply IH.
      * exact D.
Qed.

(** X12.  Major version markers are transparent: a stream and the same
    stream with its marker lines taken out are both parsed
    successfully, or both fail on the same line text with the same
    expectation (the line number moves with the lines taken out). *)
Theorem X12_markers_are_transparent :
  forall stdin,
    (parse_yaml stdin = ParsedSuccessfully <->
     parse_yaml (filter (fun l => negb (is_marker l)) stdin)
     = ParsedSuccessfully)
    /\ (forall d,
           parse_yaml stdin = Failed d ->
           exists d',
             parse_yaml (filter (fun l => negb (is_marker l)) stdin)
             = Failed d'
             /\ d_line d' = d_line d /\ d_expected d' = d_expected d).
Proof.
  intros stdin. unfold parse_yaml.
  pose proof (read_loop_without_markers stdin
                ModemYamlParser ModemYamlParser 0 0 eq_refl) as D.
  destruct (read_loop ModemYamlParser 0 stdin) as [p|d],
           (read_loop ModemYamlParser 0
              (filter (fun l => negb (is_marker l)) stdin)) as [q|d'];
    simpl in D; try contradiction.
  - split; [tauto | discriminate].
  - split; [split; discriminate|].
    intros d0 H. injection H as <-. destruct D as [D1 D2].
    exists d'. auto.
Qed.

Lemma X12_witness :
  exists d',
    parse_yaml
      (filter (fun l => negb (is_marker l))
         ["1:"; "  - release: 7"; "2:"; "    protocol: 3"])
    = Failed d'
    /\ d_line d' = "    protocol: 3"
    /\ d_expected d' = "`    date: <dd.mm.yy>`".
Proof.
  apply (proj2 (X12_markers_are_transparent
                  ["1:"; "  - release: 7"; "2:"; "    protocol: 3"])
           (mkDiagnostic 4 "    protocol: 3" "`    date: <dd.mm.yy>`")).
  reflexivity.
Defined.

(** X13.  The first diagnostic ends the run: a stream that fails keeps
    failing with the same diagnostic whatever is appended to it, and
    every initial part of a stream that is parsed successfully is
    parsed successfully too. *)
Theorem X13_first_diagnostic_wins :
  (forall pre post d,
      parse_yaml pre = Failed d -> parse_yaml (pre ++ post) = Failed d)
  /\ (forall pre post,
         parse_yaml (pre ++ post) = ParsedSuccessfully ->
         parse_yaml pre = ParsedSuccessfully).
Proof.
  unfold parse_yaml. split.
  - intros pre post d H. rewrite read_loop_app.
    destruct (read_loop ModemYamlParser 0 pre); [discriminate | exact H].
  - intros pre post H. rewrite read_loop_app in H.
    destruct (read_loop ModemYamlParser 0 pre); [reflexivity|].
    discriminate.
Qed.

Lemma X13_witness :
  parse_yaml (["  - task: tracker/1"] ++ ["    arch: avr"; ""])
  = Failed (mkDiagnostic 1 "  - task: tracker/1" "`  - task: <link-to-task>`").
Proof.
  apply (proj1 X13_first_diagnostic_wins). reflexivity.
Defined.

(** Where a diagnostic comes from: the line number of the object, the
    line that was handed in, and one of the eleven texts. *)
Lemma parse_line_exits self line d :
  parse_line self line = Exits d ->
  d_line_number d = line_number self
  /\ d_line d = line
  /\ In (d_expected d) expected_texts.
Proof.
  unfold parse_line, parse_initial, validate_initial, parse_task,
    parse_release, parse_release_tail, raise_error.
  intros H.
  destruct self as [n [mv tk ar ty de re da dp bs pr]].
  simpl in H.
  branch_on H; try discriminate; injection H as <-;
    (split; [reflexivity|]); (split; [reflexivity|]);
    simpl; auto 15.
Qed.

(** X14.  The diagnostic of a failed run points into the stream: its
    line number is the 1-based position of a line of the stream, its
    line text is the line at that position, and its expectation is one
    of the eleven fixed texts. *)
Theorem X14_diagnostic_points_at_its_line :
  forall stdin d,
    parse_yaml stdin = Failed d ->
    1 <= d_line_number d <= List.length stdin
    /\ nth_error stdin (d_line_number d - 1) = Some (d_line d)
    /\ In (d_expected d) expected_texts.
Proof.
  intros stdin d H. unfold parse_yaml in H.
  destruct (read_loop ModemYamlParser 0 stdin) as [p|d'] eqn:E;
    [discriminate|].
  injection H as ->.
  apply read_loop_exits in E as (pre & line & post & self & -> & _ & E).
  apply parse_line_exits in E as (N & L & X). simpl in N.
  rewrite N, L.
  split; [rewrite List.length_app; simpl; lia|]. split; [|exact X].
  replace (S (List.length pre) - 1) with (List.length pre) by lia.
  rewrite nth_error_app2 by lia.
  replace (List.length pre - List.length pre) with 0 by lia.
  reflexivity.
Qed.

Lemma X14_witness :
  1 <= 3 <= 4
  /\ nth_error
       ["1:"; "  - release: 7"; "    protocol: 3"; "    date: 01.02.24"]
       (3 - 1)
     = Some "    protocol: 3"
  /\ In "`    date: <dd.mm.yy>`" expected_texts.
Proof.
  apply (X14_diagnostic_points_at_its_line
           ["1:"; "  - release: 7"; "    protocol: 3"; "    date: 01.02.24"]
           (mkDiagnostic 3 "    protocol: 3" "`    date: <dd.mm.yy>`")).
  reflexivity.
Defined.

(* ================================================================== *)
(** ** Whole changelogs *)
(* ================================================================== *)

Lemma read_task_block self n decl arch_line type_line first more :
  self.[task] = false -> self.[release] = false ->
  re_match task_extended_pattern decl = true ->
  re_match arch_pattern arch_line = true ->
  re_match task_type_pattern type_line = true ->
  re_match description_initial_pattern first = true ->
  Forall (fun l => re_match description_pattern l = true) more ->
  exists self',
    read_loop self n ([decl; arch_line; type_line; first] ++ more ++ [""])
    = Returns self'
    /\ state self' = state init.
Proof.
  intros T R Hd Ha Ht Hf Hm.
  open_parser self. cbn [app read_loop].
  rewrite step_task_declaration by flags_hold.
  rewrite step_arch by flags_hold.
  rewrite step_task_type by flags_hold.
  rewrite step_task_description_initial by flags_hold.
  apply read_task_description; (reflexivity || assumption).
Qed.

Lemma read_release_block self n decl date_line base_line deps_line
    protocol_line trailer :
  self.[task] = false -> self.[release] = false ->
  re_match release_extended_pattern decl = true ->
  re_match date_pattern date_line = true ->
  base_line_ok base_line ->
  re_match dependencies_pattern deps_line = true ->
  re_match protocol_pattern protocol_line = true ->
  section_ok trailer ->
  exists self',
    read_loop self n
      ([decl; date_line] ++ optional_line base_line
       ++ [deps_line; protocol_line] ++ optional_section trailer ++ [""])
    = Returns self'
    /\ self'.[task] = false /\ self'.[release] = false.
Proof.
  intros T R Hdecl Hdate Hbase Hdeps Hproto Htrail.
  open_parser self. cbn [app read_loop].
  rewrite step_release_declaration by flags_hold.
  rewrite step_date by flags_hold.
  assert (Rest : forall p k,
             p.[task] = false -> p.[release] = true -> p.[date] = true ->
             exists self',
               read_loop p k
                 ([deps_line; protocol_line] ++ optional_section trailer
                  ++ [""])
               = Returns self'
               /\ self'.[task] = false /\ self'.[release] = false).
  { intros p k Tp Rp Dp. cbn [app read_loop].
    rewrite step_dependencies by (flags_hold || now split).
    assert (F : forall j,
               (assign (set_current_line_number p j) dependencies true)
                 .[task] = false
               /\ (assign (set_current_line_number p j) dependencies true)
                    .[release] = true
               /\ (assign (set_current_line_number p j) dependencies true)
                    .[date] = true
               /\ (assign (set_current_line_number p j) dependencies true)
                    .[dependencies] = true).
    { intros j. clear - Tp Rp Dp. open_parser p. repeat split. }
    destruct (F (S k)) as (F1 & F2 & F3 & F4).
    rewrite step_protocol by (assumption || now split).
    set (q := assign (set_current_line_number
                        (assign (set_current_line_number p (S k))
                           dependencies true) (S (S k))) protocol true).
    assert (G : q.[task] = false /\ q.[release] = true /\ q.[date] = true
                /\ q.[dependencies] = true /\ q.[protocol] = true).
    { subst q. clear - Tp Rp Dp. open_parser p. repeat split. }
    destruct G as (G1 & G2 & G3 & G4 & G5).
    destruct trailer as [[[type_line first] more]|];
      cbn [optional_section app read_loop].
    - destruct Htrail as (Ht & Hf & Hm).
      rewrite step_release_type by (assumption || now split).
      set (q1 := set_current_line_number
                   (assign (set_current_line_number q (S (S (S k))))
                      type true) (S (S (S (S k))))).
      assert (G' : q1.[task] = false /\ q1.[release] = true
                   /\ q1.[date] = true /\ q1.[dependencies] = true
                   /\ q1.[protocol] = true /\ q1.[type] = true).
      { subst q1. clear - G1 G2 G3 G4 G5.
        destruct q as [j [? ? ? ? ? ? ? ? ? ?]]. simpl in *. subst.
        repeat split. }
      destruct G' as (H1 & H2 & H3 & H4 & H5 & H6).
      rewrite step_release_description_initial
        by (assumption || now split).
      match goal with
      | |- context [read_loop ?p0 ?k0 (more ++ [""])] =>
          destruct (read_release_description more p0 k0)
            as (self' & E & S); try assumption;
            [clear - H1 H2 H3 H4 H5 H6;
             destruct q1 as [j [? ? ? ? ? ? ? ? ? ?]]; simpl in *; subst;
             reflexivity ..|]
      end.
      exists self'. split; [exact E|]. rewrite S.
      clear - H1. destruct q1 as [j [? ? ? ? ? ? ? ? ? ?]].
      simpl in *. subst. split; reflexivity.
    - rewrite step_release_separator by (assumption || now split).
      eexists. split; [reflexivity|]. clear - G1.
      destruct q as [j [? ? ? ? ? ? ? ? ? ?]]. simpl in *. subst.
      split; reflexivity. }
  destruct base_line as [b|]; cbn [optional_line app].
  - cbn [read_loop]. cbn in Hbase. rewrite step_base by flags_hold.
    apply Rest; reflexivity.
  - apply Rest; reflexivity.
Qed.

Lemma read_items (items : list item) :
  forall p n,
    p.[task] = false -> p.[release] = false ->
    Forall item_ok items ->
    exists p',
      read_loop p n (List.concat (map item_lines items)) = Returns p'
      /\ p'.[task] = false /\ p'.[release] = false.
Proof.
  induction items as [|i items IH]; intros p n T R F; simpl.
  - exists p. auto.
  - inversion F as [|? ? Hi F']; subst. rewrite read_loop_app.
    assert (First : exists p1,
               read_loop p n (item_lines i) = Returns p1
               /\ p1.[task] = false /\ p1.[release] = false).
    { destruct i as [line | decl arch_line type_line first more
                    | decl date_line base_line deps_line protocol_line
                        trailer]; simpl in Hi.
      - simpl. unfold parse_line. rewrite Hi. eexists.
        split; [reflexivity|]. clear - T R. open_parser p.
        split; reflexivity.
      - destruct Hi as (H1 & H2 & H3 & H4 & H5).
        destruct (read_task_block p n decl arch_line type_line first more)
          as (p1 & E & S); try assumption.
        exists p1. split; [exact E|]. rewrite S. split; reflexivity.
      - destruct Hi as (H1 & H2 & H3 & H4 & H5 & H6).
        now apply read_release_block. }
    destruct First as (p1 & E & T1 & R1). rewrite E.
    now apply IH.
Qed.

(** X15.  Blocks compose: a stream made of any number of major version
    markers, well-formed task blocks and well-formed release blocks, in
    any order, each block closed by its blank line, is parsed
    successfully, and the run ends with no block open.  The empty
    stream is the case of no item. *)
Theorem X15_changelog_of_blocks_is_accepted :
  forall items,
    Forall item_ok items ->
    parse_yaml (List.concat (map item_lines items)) = ParsedSuccessfully
    /\ exists self,
         read_loop ModemYamlParser 0 (List.concat (map item_lines items))
         = Returns self
         /\ mode_of self = Some Undetermined.
Proof.
  intros items F.
  destruct (read_items items ModemYamlParser 0 eq_refl eq_refl F)
    as (p & E & T & R).
  unfold parse_yaml. rewrite E. split; [reflexivity|].
  exists p. split; [reflexivity|]. unfold mode_of. now rewrite T, R.
Qed.

Lemma X15_witness :
  parse_yaml
    (List.concat
       (map item_lines
          [ Marker "1:";
            TaskBlock "  - task: http://tracker/123" "    arch: stm32, avr"
              "    feature: |" "      adds X" ["      "; "      and Y"];
            ReleaseBlock "  - prerelease: 7" "    date: 01.02.24"
              (Some "    base: ") "    dependencies: []" "    protocol: 3"
              None;
            Marker "2:";
            ReleaseBlock "  - release: 8" "    date: 03.02.24" None
              "    dependencies:" "    protocol: 3"
              (Some ("    info: |", "      notes", [])) ]))
  = ParsedSuccessfully.
Proof.
  apply X15_changelog_of_blocks_is_accepted.
  repeat constructor.
Defined.

(* ================================================================== *)
(** ** The kinds of line *)
(* ================================================================== *)

Lemma major_vers_tests (s : string) :
  re_match major_vers_pattern s = true ->
  re_match task_extended_pattern s = false
  /\ re_match release_extended_pattern s = false
  /\ re_match arch_pattern s = false
  /\ re_match task_type_pattern s = false
  /\ re_match description_pattern s = false
  /\ re_match separator_pattern s = false
  /\ re_match date_pattern s = false
  /\ re_match dependencies_pattern s = false
  /\ re_match base_pattern s = false
  /\ re_match protocol_pattern s = false.
Proof.
  intros H. apply major_vers_shape in H as (c & rest & -> & D).
  assert (B : Ascii.eqb " " c = false).
  { destruct (Ascii.eqb_spec " "%char c) as [<-|]; [discriminate|].
    reflexivity. }
  assert (N : is_newline c = false).
  { unfold is_newline. destruct (Ascii.eqb_spec c newline) as [->|];
      [discriminate | reflexivity]. }
  unfold re_match, task_extended_pattern, release_extended_pattern,
    arch_pattern, task_type_pattern, description_pattern,
    separator_pattern, date_pattern, dependencies_pattern, base_pattern,
    protocol_pattern.
  repeat split; cbn [exec strip_prefix at_eol Nat.eqb andb];
    rewrite ?B; try reflexivity.
  rewrite andb_true_r. destruct rest; [exact N | reflexivity].
Qed.

(** Go through the positions of [line_kinds] other than the one at
    hand. *)
Ltac other_kinds :=
  let j := fresh "j" in
  let q := fresh "q" in
  let Hj := fresh "Hj" in
  let Nj := fresh "Nj" in
  intros j q Hj Nj;
  do 11 (destruct j as [|j];
         [first [now elim Nj | injection Hj as <-; reflexivity]|]);
  destruct j; discriminate.

(** One goal for each position of a list that [Hi] looks up. *)
Ltac enum_index i Hi :=
  simpl in Hi;
  destruct i as [|i];
  [ first [discriminate Hi | injection Hi as <-]
  | first [discriminate Hi | enum_index i Hi] ].

Lemma line_kinds_exclusive (s : string) :
  forall i p,
    nth_error line_kinds i = Some p ->
    re_match p s = true ->
    forall j q,
      nth_error line_kinds j = Some q -> j <> i ->
      re_match q s = false.
Proof.
  intros i p Hi H. enum_index i Hi.
  - (* major version marker *)
    apply major_vers_tests in H
      as (H1 & H2 & H3 & H4 & H5 & H6 & H7 & H8 & H9 & H10).
    intros j q Hj Nj.
    do 11 (destruct j as [|j];
           [first [now elim Nj | injection Hj as <-; assumption]|]).
    destruct j; discriminate.
  - apply anchored_lit_inv in H as (rest & -> & _). other_kinds.
  - apply release_extended_shape in H as [rest [-> | ->]]; other_kinds.
  - apply anchored_lit_inv in H as (rest & -> & _). other_kinds.
  - apply task_type_shape in H as [rest [-> | [-> | [-> | ->]]]];
      other_kinds.
  - apply anchored_lit_inv in H as (rest & -> & _). other_kinds.
  - apply separator_pattern_spec in H as [-> | ->]; other_kinds.
  - apply anchored_lit_inv in H as (rest & -> & _). other_kinds.
  - apply anchored_lit_inv in H as (rest & -> & _). other_kinds.
  - apply anchored_lit_inv in H as (rest & -> & _). other_kinds.
  - apply anchored_lit_inv in H as (rest & -> & _). other_kinds.
Qed.

(** X16.  The eleven kinds of line exclude each other: a line that
    matches the pattern of one kind (major version marker, task
    declaration, release declaration, architecture, type, description,
    blank, date, dependencies, base, protocol) matches the pattern of
    no other, so the order in which the methods try the patterns decides
    nothing between them. *)
Theorem X16_line_kinds_exclude_each_other :
  forall s i j p q,
    nth_error line_kinds i = Some p ->
    nth_error line_kinds j = Some q ->
    i <> j ->
    re_match p s = true ->
    re_match q s = false.
Proof.
  intros s i j p q Hi Hj N H.
  apply (line_kinds_exclusive s i p Hi H j q Hj).
  intros E. apply N. now symmetry.
Qed.

Lemma X16_witness :
  re_match base_pattern "    dependencies: []" = false.
Proof.
  apply (X16_line_kinds_exclude_each_other "    dependencies: []" 8 9
           dependencies_pattern base_pattern);
    [reflexivity | reflexivity | lia | reflexivity].
Defined.

(* ================================================================== *)
(** ** What two of the patterns accept, in full *)
(* ================================================================== *)

Lemma all_digits_app (u v : string) :
  all_digits (u ++ v) = all_digits u && all_digits v.
Proof.
  induction u as [|c u IH]; simpl; [reflexivity|].
  now rewrite IH, andb_assoc.
Qed.

Lemma star_digit_inv pos s pos' s' :
  matches (Star Digit) pos s pos' s' ->
  exists u, all_digits u = true /\ s = u ++ s'.
Proof.
  intros M. remember (Star Digit) as sr eqn:E.
  induction M as
    [ | | | | | | | |
    | r pos s | r pos s pos1 s1 pos2 s2 M1 _ M2 IH2 ];
    try discriminate; injection E as ->.
  - now exists "".
  - destruct (IH2 eq_refl) as (u & D & ->). inversion M1; subst.
    exists (String c u). split; [|reflexivity].
    simpl. apply andb_true_iff. now split.
Qed.

Lemma star_digit_intro (u : string) :
  all_digits u = true ->
  forall pos s', exists pos', matches (Star Digit) pos (u ++ s') pos' s'.
Proof.
  induction u as [|c u IH]; intros D pos s'.
  - exists pos. constructor.
  - simpl in D. apply andb_true_iff in D as [Dc Du].
    destruct (IH Du (S pos) s') as [pos' M].
    exists pos'. simpl. eapply M_Star_more; [now constructor | exact M].
Qed.

Lemma star_plus_digit_inv pos s pos' s' :
  matches (Star (Plus Digit)) pos s pos' s' ->
  exists u, all_digits u = true /\ s = u ++ s'.
Proof.
  intros M. remember (Star (Plus Digit)) as sr eqn:E.
  induction M as
    [ | | | | | | | |
    | r pos s | r pos s pos1 s1 pos2 s2 M1 _ M2 IH2 ];
    try discriminate; injection E as ->.
  - now exists "".
  - destruct (IH2 eq_refl) as (u2 & D2 & ->).
    unfold Plus in M1.
    inversion M1 as [ | | | | | | ? ? ? ? ? ? ? ? Md Ms | | | | ]; subst.
    inversion Md; subst.
    apply star_digit_inv in Ms as (u1 & D1 & ->).
    exists (String c u1 ++ u2). split.
    + rewrite all_digits_app. simpl.
      apply andb_true_iff. split; [|exact D2].
      apply andb_true_iff. now split.
    + simpl. now rewrite app_assoc_string.
Qed.

Lemma star_plus_digit_intro (u : string) :
  all_digits u = true ->
  forall pos s',
    exists pos', matches (Star (Plus Digit)) pos (u ++ s') pos' s'.
Proof.
  intros D pos s'. destruct u as [|c u].
  - exists pos. constructor.
  - simpl in D. apply andb_true_iff in D as [Dc Du].
    destruct (star_digit_intro u Du (S pos) s') as [pos' M].
    exists pos'. simpl.
    eapply M_Star_more; [|apply M_Star_stop].
    unfold Plus. eapply M_Cat; [now constructor | exact M].
Qed.

(** X17.  The base pattern accepts exactly the lines made of
    [    base: ], with the blank after the colon, followed by digits
    only, none included: the group of digits under a star adds nothing
    to a plain run of digits.  (As with every [$], one line feed may end
    the line.) *)
Theorem X17_base_pattern_language :
  forall s,
    re_match base_pattern s = true <->
    exists u,
      all_digits u = true
      /\ (s = "    base: " ++ u \/ s = "    base: " ++ u ++ line_feed).
Proof.
  intros s. rewrite re_match_spec. unfold base_pattern. split.
  - intros (pos' & s' & M).
    inversion M as [ | | | | | | ? ? ? ? ? ? ? ? Mb M1 | | | | ]; subst.
    inversion Mb; subst.
    inversion M1 as [ | | | | | | ? ? ? ? ? ? ? ? Ml M2 | | | | ]; subst.
    inversion Ml; subst.
    inversion M2 as [ | | | | | | ? ? ? ? ? ? ? ? Ms Me | | | | ]; subst.
    apply star_plus_digit_inv in Ms as (u & D & ->).
    inversion Me as [ | ? ? At | | | | | | | | | ]; subst.
    exists u. split; [exact D|].
    destruct s' as [|c [|d s']]; simpl in At; try discriminate.
    + left. now rewrite app_empty_r.
    + right. unfold is_newline in At.
      destruct (Ascii.eqb_spec c newline) as [->|]; [|discriminate].
      reflexivity.
  - intros (u & D & [-> | ->]).
    + destruct (star_plus_digit_intro u D
                  (0 + String.length "    base: ") "") as [pos' Ms].
      exists pos', "". rewrite app_empty_r in Ms.
      eapply M_Cat; [apply M_Bol|]. eapply M_Cat; [apply M_Lit|].
      eapply M_Cat; [exact Ms|]. now apply M_Eol.
    + destruct (star_plus_digit_intro u D
                  (0 + String.length "    base: ") line_feed) as [pos' Ms].
      exists pos', line_feed.
      eapply M_Cat; [apply M_Bol|]. eapply M_Cat; [apply M_Lit|].
      eapply M_Cat; [exact Ms|]. now apply M_Eol.
Qed.

Lemma X17_witness : re_match base_pattern ("    base: " ++ "2024") = true.
Proof.
  apply (proj2 (X17_base_pattern_language ("    base: " ++ "2024"))).
  exists "2024". split; [reflexivity | now left].
Defined.

Lemma arch_name_inv pos s pos' s' :
  matches arch_name pos s pos' s' ->
  exists w, In w arch_names /\ s = w ++ s'.
Proof.
  unfold arch_name. intros M.
  repeat match goal with
  | H : matches (Alt _ _) _ _ _ _ |- _ => inversion H; subst; clear H
  end;
  match goal with
  | H : matches (Lit ?w) _ _ _ _ |- _ =>
      inversion H; subst; exists w; split; [simpl; auto | reflexivity]
  end.
Qed.

Lemma arch_name_intro (w : string) :
  In w arch_names ->
  forall pos s', exists pos', matches arch_name pos (w ++ s') pos' s'.
Proof.
  intros [<- | [<- | [<- | []]]] pos s'; eexists; unfold arch_name.
  - apply M_Alt_l. apply M_Lit.
  - apply M_Alt_r. apply M_Alt_l. apply M_Lit.
  - apply M_Alt_r. apply M_Alt_r. apply M_Lit.
Qed.

Lemma star_names_inv pos s pos' s' :
  matches (Star (Cat (Lit ", ") arch_name)) pos s pos' s' ->
  exists ws,
    Forall (fun w => In w arch_names) ws /\ s = more_names ws ++ s'.
Proof.
  intros M. remember (Star (Cat (Lit ", ") arch_name)) as sr eqn:E.
  induction M as
    [ | | | | | | | |
    | r pos s | r pos s pos1 s1 pos2 s2 M1 _ M2 IH2 ];
    try discriminate; injection E as ->.
  - now exists [].
  - destruct (IH2 eq_refl) as (ws & F & ->).
    inversion M1 as [ | | | | | | ? ? ? ? ? ? ? ? Ml Mn | | | | ]; subst.
    inversion Ml; subst.
    apply arch_name_inv in Mn as (w & W & ->).
    exists (w :: ws). split; [now constructor|].
    cbn [more_names]. now rewrite !app_assoc_string.
Qed.

Lemma star_names_intro (ws : list string) :
  Forall (fun w => In w arch_names) ws ->
  forall pos s',
    exists pos',
      matches (Star (Cat (Lit ", ") arch_name)) pos (more_names ws ++ s')
        pos' s'.
Proof.
  induction 1 as [|w ws W F IH]; intros pos s'.
  - exists pos. constructor.
  - destruct (arch_name_intro w W (pos + String.length ", ")
                (more_names ws ++ s')) as [pos1 Mn].
    destruct (IH pos1 s') as [pos' Ms].
    exists pos'. cbn [more_names]. rewrite !app_assoc_string.
    eapply M_Star_more; [|exact Ms].
    eapply M_Cat; [apply M_Lit | exact Mn].
Qed.

(** X18.  The architecture pattern accepts exactly the lines made of
    [    arch: ], one of the three names, and any number of further
    names, each behind a comma and a blank; a name may come again.  (As
    with every [$], one line feed may end the line.) *)
Theorem X18_arch_pattern_language :
  forall s,
    re_match arch_pattern s = true <->
    exists w ws,
      In w arch_names
      /\ Forall (fun w => In w arch_names) ws
      /\ (s = "    arch: " ++ w ++ more_names ws
          \/ s = "    arch: " ++ w ++ more_names ws ++ line_feed).
Proof.
  intros s. rewrite re_match_spec. unfold arch_pattern. split.
  - intros (pos' & s' & M).
    inversion M as [ | | | | | | ? ? ? ? ? ? ? ? Mb M1 | | | | ]; subst.
    inversion Mb; subst.
    inversion M1 as [ | | | | | | ? ? ? ? ? ? ? ? Ml M2 | | | | ]; subst.
    inversion Ml; subst.
    inversion M2 as [ | | | | | | ? ? ? ? ? ? ? ? Mn M3 | | | | ]; subst.
    apply arch_name_inv in Mn as (w & W & ->).
    inversion M3 as [ | | | | | | ? ? ? ? ? ? ? ? Ms Me | | | | ]; subst.
    apply star_names_inv in Ms as (ws & F & ->).
    inversion Me as [ | ? ? At | | | | | | | | | ]; subst.
    exists w, ws. split; [exact W|]. split; [exact F|].
    destruct s' as [|c [|d s']]; simpl in At; try discriminate.
    + left. now rewrite app_empty_r.
    + right. unfold is_newline in At.
      destruct (Ascii.eqb_spec c newline) as [->|]; [|discriminate].
      reflexivity.
  - assert (Build : forall w ws tail,
               In w arch_names ->
               Forall (fun w => In w arch_names) ws ->
               at_eol tail = true ->
               exists pos' s',
                 matches
                   (Cat Bol (Cat (Lit "    arch: ")
                      (Cat arch_name
                         (Cat (Star (Cat (Lit ", ") arch_name)) Eol))))
                   0 ("    arch: " ++ w ++ more_names ws ++ tail) pos' s').
    { intros w ws tail W F At.
      destruct (arch_name_intro w W (0 + String.length "    arch: ")
                  (more_names ws ++ tail)) as [pos1 Mn].
      destruct (star_names_intro ws F pos1 tail) as [pos2 Ms].
      exists pos2, tail.
      eapply M_Cat; [apply M_Bol|]. eapply M_Cat; [apply M_Lit|].
      eapply M_Cat; [exact Mn|]. eapply M_Cat; [exact Ms|].
      now apply M_Eol. }
    intros (w & ws & W & F & [-> | ->]).
    + destruct (Build w ws "" W F eq_refl) as (pos' & s' & M).
      rewrite app_empty_r in M. now exists pos', s'.
    + destruct (Build w ws line_feed W F eq_refl) as (pos' & s' & M).
      now exists pos', s'.
Qed.

Lemma X18_witness :
  re_match arch_pattern ("    arch: " ++ "avr" ++ more_names ["avr"; "at32"])
  = true.
Proof.
  apply (proj2 (X18_arch_pattern_language
                  ("    arch: " ++ "avr" ++ more_names ["avr"; "at32"]))).
  exists "avr", ["avr"; "at32"].
  split; [simpl; auto|]. split; [|left; reflexivity].
  repeat (apply Forall_cons; [simpl; auto 6|]). apply Forall_nil.
Defined.

(* ================================================================== *)
(** ** The printed diagnostic *)
(* ================================================================== *)

Section Printed.

Lemma every_app P (u v : string) :
  every P (u ++ v) = every P u && every P v.
Proof.
  induction u as [|c u IH]; simpl; [reflexivity|].
  now rewrite IH, andb_assoc.
Qed.

(** Two texts that agree, each cut at a character outside the class of
    its first part, agree part by part. *)
Lemma cut_at_first P c :
  P c = false ->
  forall u1 u2 r1 r2,
    every P u1 = true -> every P u2 = true ->
    u1 ++ String c r1 = u2 ++ String c r2 ->
    u1 = u2 /\ r1 = r2.
Proof.
  intros Pc. induction u1 as [|a u1 IH]; intros [|b u2] r1 r2 E1 E2 H;
    simpl in *.
  - injection H as ->. now split.
  - injection H as -> _. apply andb_true_iff in E2 as [E2 _]. congruence.
  - injection H as -> _. apply andb_true_iff in E1 as [E1 _]. congruence.
  - injection H as -> H.
    apply andb_true_iff in E1 as [_ E1]. apply andb_true_iff in E2 as [_ E2].
    destruct (IH u2 r1 r2 E1 E2 H) as [-> ->]. now split.
Qed.

Lemma app_inv_last (c : ascii) :
  forall u1 u2, u1 ++ String c "" = u2 ++ String c "" -> u1 = u2.
Proof.
  induction u1 as [|a u1 IH]; intros [|b u2] H; simpl in *.
  - reflexivity.
  - injection H as _ H. destruct u2; discriminate.
  - injection H as _ H. destruct u1; discriminate.
  - injection H as -> H. f_equal. now apply IH.
Qed.

Lemma app_inv_head_string (p : string) :
  forall u v, p ++ u = p ++ v -> u = v.
Proof.
  induction p as [|a p IH]; intros u v H; simpl in H; [exact H|].
  injection H as H. now apply IH.
Qed.

Lemma decimal_digits (n : nat) :
  every is_digit (decimal n) = true.
Proof.
  unfold decimal. induction (Nat.to_uint n) as [|d IH|d IH|d IH|d IH|d IH
                                              |d IH|d IH|d IH|d IH|d IH];
    simpl; [reflexivity | exact IH ..].
Qed.

Lemma decimal_inj (n m : nat) : decimal n = decimal m -> n = m.
Proof.
  unfold decimal. intros H.
  assert (U : Nat.to_uint n = Nat.to_uint m).
  { pose proof (NilEmpty.usu (Nat.to_uint n)) as A.
    pose proof (NilEmpty.usu (Nat.to_uint m)) as B.
    rewrite H in A. congruence. }
  rewrite <- (Unsigned.of_to n), <- (Unsigned.of_to m). now rewrite U.
Qed.

(** The shape of the text, with the three parts of the diagnostic in
    it. *)
Lemma raise_error_output_eq fd0 d :
  raise_error_output fd0 d
  = ("ERROR of file structure at " ++ fd0 ++ ", line ")
    ++ decimal (d_line_number d)
    ++ String ":" (line_feed ++ "`" ++ (d_line d ++ "`")
                   ++ String newline ("Expected: " ++ d_expected d
                                      ++ line_feed)).
Proof.
  unfold raise_error_output, error_print, print, error, error_message.
  cbn [nth skipn map String.concat].
  unfold line_feed.
  repeat (rewrite ?app_assoc_string; cbn [append]).
  reflexivity.
Qed.

End Printed.

(** X19.  The text that [raise_error] prints tells the diagnostic: for
    one and the same name of standard input, and lines without a line
    feed (as [input()] gives them), two diagnostics that print the same
    text have the same line number, the same line and the same
    expectation. *)
Theorem X19_printed_diagnostic_is_unambiguous :
  forall fd0 d1 d2,
    no_line_feed (d_line d1) = true ->
    no_line_feed (d_line d2) = true ->
    raise_error_output fd0 d1 = raise_error_output fd0 d2 ->
    d1 = d2.
Proof.
  intros fd0 [n1 l1 e1] [n2 l2 e2] N1 N2 H. simpl in N1, N2.
  rewrite !raise_error_output_eq in H. simpl d_line_number in H.
  simpl d_line in H. simpl d_expected in H.
  apply app_inv_head_string in H.
  apply (cut_at_first is_digit ":"%char eq_refl) in H
    as [Hn H]; try apply decimal_digits.
  apply decimal_inj in Hn. subst n2.
  apply app_inv_head_string in H.
  apply (app_inv_head_string "`") in H.
  apply (cut_at_first (fun c => negb (is_newline c)) newline eq_refl) in H
    as [Hl He].
  - apply app_inv_last in Hl. subst l2.
    apply app_inv_head_string in He. apply app_inv_last in He.
    now subst e2.
  - unfold no_line_feed in N1. rewrite every_app, N1. reflexivity.
  - unfold no_line_feed in N2. rewrite every_app, N2. reflexivity.
Qed.

Lemma X19_witness :
  mkDiagnostic 3 "    protocol: 3" "`    date: <dd.mm.yy>`"
  = mkDiagnostic 3 "    protocol: 3" "`    date: <dd.mm.yy>`".
Proof.
  apply (X19_printed_diagnostic_is_unambiguous "/dev/pts/0");
    reflexivity.
Defined.
